(** * DrawTrigger: the timer-triggered function and its daily metering gate

    A shallow embedding of [artifacts/function/DrawTrigger/__init__.py].

    The function talks to the outside world only: the wall clock, the
    process environment, the CloudNetDraw library, the local [/tmp]
    directory, Azure Blob Storage and three HTTP endpoints.  The embedding
    keeps the control flow of the Python code and turns every external
    interaction into an explicit effect:

    - the blob store and the number of clock reads are threaded as state;
    - a raised Python exception is the [inl] result of a computation (the
      state changes made before the [raise] are kept, as in Python);
    - every completed external interaction and every [logging] call is
      appended to a trace;
    - what the outside world answers is given by a [world] record, about
      which the theorems make no assumption beyond their stated hypotheses. *)

From Stdlib Require Import ZArith Lia Ascii String.
From stdpp Require Import gmap strings list fin_maps.

Local Open Scope string_scope.

(** ** Python values and exceptions *)

(** [bytes] objects. *)
Definition bytes : Type := list Byte.byte.

(** What [r.json()] can return: a decoded JSON document, with integer
    numbers only. An object keeps its members in document order; Python's
    decoder lets the last duplicate win (see [py_getitem]). *)
#[warnings="-register-all"]
Inductive json : Type :=
| JNull
| JBool (b : bool)
| JNum (z : Z)
| JStr (s : string)
| JArr (l : list json)
| JObj (members : list (string * json)).

(** Instances of Python's [Exception] that the libraries used here raise.
    [ResourceNotFoundError] is the class of [azure.core.exceptions] the
    source imports; [HttpResponseError] stands for the other service errors
    of the storage SDK; [HTTPError] is what [raise_for_status] raises;
    [RequestException] covers the transport failures of [requests]
    (connection errors, timeouts). *)
Inductive exn : Type :=
| ResourceNotFoundError
| HttpResponseError (status : Z)
| ServiceRequestError
| HTTPError (status : Z)
| RequestException (what : string)
| JSONDecodeError
| KeyError (key : string)
| TypeError
| ValueError
| OSError (what : string)
| OtherException (what : string).

(** [isinstance(e, ResourceNotFoundError)] *)
Definition is_ResourceNotFoundError (e : exn) : bool :=
  match e with
  | ResourceNotFoundError => true
  | _ => false
  end.

(** [isinstance(e, Exception)]: every value of [exn] is one. *)
Definition is_Exception (e : exn) : bool := true.

(** ** The clock and [strftime] *)

Record datetime : Type := mkDatetime {
  year : Z; month : Z; day : Z;
  hour : Z; minute : Z; second : Z
}.

Definition digit (d : Z) : ascii := ascii_of_nat (Z.to_nat (48 + d)).

(** [%m], [%d], [%H], [%M], [%S]: two digits, zero padded. *)
Definition pad2 (n : Z) : string :=
  String (digit (n / 10)) (String (digit (n mod 10)) EmptyString).

(** [%Y]: the year with century; four digits for every year from 1000 on
    (and zero padded below, as the Python documentation gives it). *)
Definition pad4 (n : Z) : string :=
  String (digit (n / 1000))
    (String (digit ((n / 100) mod 10))
       (String (digit ((n / 10) mod 10))
          (String (digit (n mod 10)) EmptyString))).

(** [t.strftime("%Y-%m-%d")] *)
Definition strftime_date (t : datetime) : string :=
  pad4 (year t) +:+ "-" +:+ pad2 (month t) +:+ "-" +:+ pad2 (day t).

(** [t.strftime("%Y-%m-%d_%H-%M-%S")] *)
Definition strftime_stamp (t : datetime) : string :=
  strftime_date t +:+ "_" +:+ pad2 (hour t) +:+ "-" +:+ pad2 (minute t)
    +:+ "-" +:+ pad2 (second t).

(** [t.strftime("%Y-%m-%dT%H:%M:%SZ")] *)
Definition strftime_iso (t : datetime) : string :=
  strftime_date t +:+ "T" +:+ pad2 (hour t) +:+ ":" +:+ pad2 (minute t)
    +:+ ":" +:+ pad2 (second t) +:+ "Z".

(** A calendar day, the part of a clock reading that [%Y-%m-%d] shows. *)
Definition date : Type := Z * Z * Z.

Definition date_of (t : datetime) : date := (year t, month t, day t).

(** The range of Python's [datetime]: years 1 to 9999. *)
Definition valid_date (d : date) : Prop :=
  let '(y, m, dd) := d in
  (1 <= y <= 9999 /\ 1 <= m <= 12 /\ 1 <= dd <= 31)%Z.

Definition is_leap (y : Z) : bool :=
  ((y mod 4 =? 0)%Z && negb (y mod 100 =? 0)%Z) || (y mod 400 =? 0)%Z.

Definition days_in_month (y m : Z) : Z :=
  if (m =? 2)%Z then (if is_leap y then 29 else 28)%Z
  else if (m =? 4)%Z || (m =? 6)%Z || (m =? 9)%Z || (m =? 11)%Z then 30%Z
  else 31%Z.

(** The day after, in the proleptic Gregorian calendar of [datetime]. *)
Definition next_day (d : date) : date :=
  let '(y, m, dd) := d in
  if (dd <? days_in_month y m)%Z then (y, m, dd + 1)%Z
  else if (m <? 12)%Z then (y, m + 1, 1)%Z
  else (y + 1, 1, 1)%Z.

(** ** Blob storage *)

(** A [BlobServiceClient] is bound to an account; a blob client addresses
    one object by account URL, container and blob name. *)
Record BlobServiceClient : Type := mkBlobServiceClient { account_url : string }.

Definition blob_ref : Type := string * string * string.

Definition get_blob_client (c : BlobServiceClient) (container blob : string) : blob_ref :=
  (account_url c, container, blob).

(** ** HTTP *)

Inductive endpoint : Type :=
| TokenEndpoint
| ResolutionEndpoint (subscription_id resource_group_name : string)
| EmissionEndpoint.

Definition url_of (ep : endpoint) : string :=
  match ep with
  | TokenEndpoint =>
      "http://169.254.169.254/metadata/identity/oauth2/token"
      +:+ "?api-version=2018-02-01"
      +:+ "&resource=00001111-aaaa-2222-bbbb-3333cccc4444"
  | ResolutionEndpoint subscription_id resource_group_name =>
      "https://management.azure.com/subscriptions/" +:+ subscription_id
      +:+ "/resourcegroups/" +:+ resource_group_name +:+ "?api-version=2021-04-01"
  | EmissionEndpoint =>
      "https://marketplaceapi.microsoft.com/api/usageEvent?api-version=2018-08-31"
  end.

(** A header value: a literal, or the f-string [f"Bearer {token}"]. *)
Inductive header_value : Type :=
| HLit (s : string)
| HBearer (token : json).

Inductive method : Type := GET | POST.

Record request : Type := mkRequest {
  req_method : method;
  req_endpoint : endpoint;
  req_headers : list (string * header_value);
  req_json : option json;
  req_timeout : Z
}.

(** What [requests.get] / [requests.post] does: raise, or return a
    response with a status code and a body ([None] when the body is not
    JSON). *)
Inductive http_result : Type :=
| RequestFailed (e : exn)
| Response (status_code : Z) (body : option json).

(** ** The outside world *)

Record world : Type := mkWorld {
  (** [os.environ] *)
  environ : gmap string string;
  (** the n-th reading of [datetime.utcnow()] *)
  clock : nat -> datetime;
  (** CloudNetDraw and the local file system *)
  get_all_subscription_ids : exn + list string;
  get_vnet_topology_for_selected_subscriptions : list string -> exn + json;
  dump_json : string -> json -> option exn;
  Config_init : option exn;
  generate_mld_diagram : string -> string -> option exn;
  generate_hld_diagram : string -> string -> option exn;
  read_file : string -> exn + bytes;
  (** the storage SDK: a constructor that may reject the account URL, and
      per-object failures of the service that do not come from the
      contents of the store *)
  BlobServiceClient_init : string -> option exn;
  get_blob_properties_fault : blob_ref -> option exn;
  upload_blob_fault : blob_ref -> option exn;
  (** the network *)
  http : request -> http_result
}.

(** ** Effects *)

Record state : Type := mkState {
  blobs : gmap blob_ref bytes;
  ticks : nat
}.

Inductive level : Type := INFO | ERROR.

Inductive log_arg : Type :=
| AStr (s : string)
| ANat (n : nat)
| AStrs (l : list string)
| AExn (e : exn).

(** A completed interaction with its outcome, or a log record (the format
    string with [{}] for each interpolated value, and the values). *)
Inductive event : Type :=
| EvLog (lvl : level) (fmt : string) (args : list log_arg)
| EvGetBlobProperties (b : blob_ref) (raised : option exn)
| EvUploadBlob (b : blob_ref) (data : bytes) (raised : option exn)
| EvRequest (r : request) (res : http_result).

Definition M (A : Type) : Type := state -> (exn + A) * state * list event.

Definition ret {A} (a : A) : M A := fun s => (inr a, s, []).

Definition raise {A} (e : exn) : M A := fun s => (inl e, s, []).

Definition bind {A B} (m : M A) (k : A -> M B) : M B :=
  fun s =>
    match m s with
    | (inl e, s1, t1) => (inl e, s1, t1)
    | (inr a, s1, t1) =>
        match k a s1 with
        | (r, s2, t2) => (r, s2, (t1 ++ t2)%list)
        end
    end.

Declare Scope py_scope.
Delimit Scope py_scope with py.
Notation "x <- m ;; k" := (bind m (fun x => k))
  (at level 100, m at next level, right associativity) : py_scope.
Notation "m ;; k" := (bind m (fun _ => k))
  (at level 100, right associativity) : py_scope.
Local Open Scope py_scope.

(** [try: m  except C as e: h e] where [handles e] is [isinstance(e, C)]. *)
Definition try_except {A} (m : M A) (handles : exn -> bool) (h : exn -> M A) : M A :=
  fun s =>
    match m s with
    | (inl e, s1, t1) =>
        if handles e then
          match h e s1 with
          | (r, s2, t2) => (r, s2, (t1 ++ t2)%list)
          end
        else (inl e, s1, t1)
    | (inr a, s1, t1) => (inr a, s1, t1)
    end.

(** [try: m  except Exception as e: ...] with the outcome handed to the
    code that follows, for the handlers that [return]. *)
Definition attempt {A} (m : M A) : M (exn + A) :=
  try_except (a <- m ;; ret (inr a)) is_Exception (fun e => ret (inl e)).

Definition emit (ev : event) : M unit := fun s => (inr tt, s, [ev]).

Definition lift_option (o : option exn) : M unit :=
  match o with
  | Some e => raise e
  | None => ret tt
  end.

Definition lift_sum {A} (r : exn + A) : M A :=
  match r with
  | inl e => raise e
  | inr a => ret a
  end.

Definition logging_info (fmt : string) (args : list log_arg) : M unit :=
  emit (EvLog INFO fmt args).

Definition logging_error (fmt : string) (args : list log_arg) : M unit :=
  emit (EvLog ERROR fmt args).

(** [not x] for [x = os.environ.get(name)]: [None] and the empty string are
    falsy. *)
Definition falsy (x : option string) : bool :=
  match x with
  | None => true
  | Some s => if decide (s = EmptyString) then true else false
  end.

(** The value of [x = os.environ.get(name)] used as a string, in the
    branches where [not x] has been ruled out. *)
Definition str_of (x : option string) : string := default EmptyString x.

(** [v[key]] on a decoded JSON value. *)
Fixpoint dict_get (members : list (string * json)) (key : string) : option json :=
  match members with
  | [] => None
  | (k, v) :: rest =>
      match dict_get rest key with
      | Some v' => Some v'
      | None => if decide (k = key) then Some v else None
      end
  end.

Definition py_getitem (v : json) (key : string) : exn + json :=
  match v with
  | JObj members =>
      match dict_get members key with
      | Some x => inr x
      | None => inl (KeyError key)
      end
  | _ => inl TypeError
  end.

Section Program.

Variable w : world.

(** [datetime.utcnow()] *)
Definition utcnow : M datetime :=
  fun s => (inr (clock w (ticks s)), mkState (blobs s) (S (ticks s)), []).

(** [blob_client.get_blob_properties()]: a service failure, or the answer
    of the store: the properties, or [ResourceNotFoundError]. *)
Definition get_blob_properties (b : blob_ref) : M unit :=
  fun s =>
    let raised :=
      match get_blob_properties_fault w b with
      | Some e => Some e
      | None =>
          match blobs s !! b with
          | Some _ => None
          | None => Some ResourceNotFoundError
          end
      end in
    (match raised with Some e => inl e | None => inr tt end,
     s, [EvGetBlobProperties b raised]).

(** [blob_client.upload_blob(data, overwrite=True)] *)
Definition upload_blob (b : blob_ref) (data : bytes) : M unit :=
  fun s =>
    match upload_blob_fault w b with
    | Some e => (inl e, s, [EvUploadBlob b data (Some e)])
    | None =>
        (inr tt, mkState (<[b := data]> (blobs s)) (ticks s),
         [EvUploadBlob b data None])
    end.

(** [requests.get(url, headers=..., timeout=...)] and [requests.post]. *)
Definition requests_send (r : request) : M (Z * option json) :=
  fun s =>
    (match http w r with
     | RequestFailed e => inl e
     | Response status_code body => inr (status_code, body)
     end, s, [EvRequest r (http w r)]).

(** [r.raise_for_status()] *)
Definition raise_for_status (r : Z * option json) : M unit :=
  let status_code := fst r in
  if decide (400 <= status_code < 600)%Z then raise (HTTPError status_code)
  else ret tt.

(** [r.json()] *)
Definition response_json (r : Z * option json) : M json :=
  match snd r with
  | Some v => ret v
  | None => raise JSONDecodeError
  end.

Definition marker_blob_name (today : string) : string :=
  "billing/dailyRun_" +:+ today +:+ ".marker".

Definition get_msi_token : M json :=
  let headers := [("Metadata", HLit "true")] in
  r <- requests_send (mkRequest GET TokenEndpoint headers None 5) ;;
  raise_for_status r ;;
  j <- response_json r ;;
  lift_sum (py_getitem j "access_token").

Definition get_managed_app_resource_id
    (subscription_id resource_group_name : string) (token : json) : M json :=
  let headers := [("Authorization", HBearer token)] in
  r <- requests_send
         (mkRequest GET (ResolutionEndpoint subscription_id resource_group_name)
            headers None 10) ;;
  raise_for_status r ;;
  j <- response_json r ;;
  lift_sum (py_getitem j "managedBy").

Definition emit_meter_event (resource_id : json) (plan_id : string) (token : json) : M json :=
  now <- utcnow ;;
  let body := JObj [
    ("resourceId", resource_id);
    ("dimension", JStr "dailyRun");
    ("quantity", JNum 1);
    ("effectiveStartTime", JStr (strftime_iso now));
    ("planId", JStr plan_id) ] in
  let headers := [
    ("Authorization", HBearer token);
    ("Content-Type", HLit "application/json") ] in
  r <- requests_send (mkRequest POST EmissionEndpoint headers (Some body) 10) ;;
  raise_for_status r ;;
  response_json r.

Definition has_billed_today (blob_service_client : BlobServiceClient)
    (container_name : string) : M bool :=
  now <- utcnow ;;
  let today := strftime_date now in
  let blob_name := marker_blob_name today in
  let blob_client := get_blob_client blob_service_client container_name blob_name in
  try_except
    (get_blob_properties blob_client ;; ret true)
    is_ResourceNotFoundError
    (fun _ => ret false).

Definition mark_billed_today (blob_service_client : BlobServiceClient)
    (container_name : string) : M unit :=
  now <- utcnow ;;
  let today := strftime_date now in
  let blob_name := marker_blob_name today in
  let blob_client := get_blob_client blob_service_client container_name blob_name in
  upload_blob blob_client [].

(** The helper [upload_file] that [main] defines (lines 90-98), with the
    two variables it closes over as parameters. *)
Definition upload_file (blob_service_client : BlobServiceClient)
    (container_name : string) (blob_name file_path : string) : M unit :=
  try_except
    (let blob_client := get_blob_client blob_service_client container_name blob_name in
     data <- lift_sum (read_file w file_path) ;;
     upload_blob blob_client data ;;
     logging_info "Uploaded {} to Blob Storage" [AStr blob_name])
    is_Exception
    (fun upload_error =>
       logging_error "Failed to upload {}: {}" [AStr blob_name; AExn upload_error]).

Definition msg_already_billed : string :=
  "Already billed for today, skipping metering event.".
Definition msg_missing_config : string :=
  "Missing metering configuration (SUBSCRIPTION_ID, RESOURCE_GROUP_NAME, PLAN_ID). "
  +:+ "Skipping metering event.".
Definition msg_submitted : string :=
  "Marketplace metering event submitted (1 unit).".
Definition msg_metering_failed : string :=
  "Failed to submit metering event: {}".

(** The body of the [try] of the metered billing logic (lines 107-125). *)
Definition metering_body (blob_service_client : BlobServiceClient)
    (container_name : string) : M unit :=
  billed <- has_billed_today blob_service_client container_name ;;
  if (billed : bool) then logging_info msg_already_billed []
  else
    msi_token <- get_msi_token ;;
    let subscription_id := environ w !! "SUBSCRIPTION_ID" in
    let rg_name := environ w !! "RESOURCE_GROUP_NAME" in
    let plan_id := environ w !! "PLAN_ID" in
    if falsy subscription_id || falsy rg_name || falsy plan_id then
      logging_error msg_missing_config []
    else
      let subscription_id := str_of subscription_id in
      let rg_name := str_of rg_name in
      let plan_id := str_of plan_id in
      resource_id <- get_managed_app_resource_id subscription_id rg_name msi_token ;;
      emit_meter_event resource_id plan_id msi_token ;;
      mark_billed_today blob_service_client container_name ;;
      logging_info msg_submitted [].

(** The metered billing logic (lines 106-128): the [try] with its handler. *)
Definition metering (blob_service_client : BlobServiceClient)
    (container_name : string) : M unit :=
  try_except (metering_body blob_service_client container_name)
    is_Exception
    (fun e => logging_error msg_metering_failed [AExn e]).

(** Lines 100-130: the three uploads, the metered billing logic and the
    closing log record. *)
Definition publish_and_meter (blob_service_client : BlobServiceClient)
    (container_name : string)
    (json_file_name json_file_path : string)
    (diagram_file_name_mld diagram_file_path_mld : string)
    (diagram_file_name_hld diagram_file_path_hld : string) : M unit :=
  upload_file blob_service_client container_name json_file_name json_file_path ;;
  upload_file blob_service_client container_name diagram_file_name_mld diagram_file_path_mld ;;
  upload_file blob_service_client container_name diagram_file_name_hld diagram_file_path_hld ;;
  metering blob_service_client container_name ;;
  logging_info "DrawTrigger function execution completed successfully" [].

(** The entry point. A handler that ends in [return] ends the run with the
    error logged; [DefaultAzureCredential()] only builds an object. *)
Definition main : M unit :=
  logging_info "DrawTrigger function triggered" [] ;;
  now <- utcnow ;;
  let timestamp := strftime_stamp now in
  r <- attempt
         (subscription_ids <- lift_sum (get_all_subscription_ids w) ;;
          logging_info "Found {} subscriptions: {}"
            [ANat (length subscription_ids); AStrs subscription_ids] ;;
          ret subscription_ids) ;;
  match r with
  | inl e => logging_error "Failed to list subscriptions: {}" [AExn e]
  | inr subscription_ids =>
  r <- attempt
         (lift_sum (get_vnet_topology_for_selected_subscriptions w subscription_ids)) ;;
  match r with
  | inl e => logging_error "Failed to retrieve VNet topology: {}" [AExn e]
  | inr topology =>
  let json_file_name := timestamp +:+ "_network_topology.json" in
  let json_file_path := "/tmp/" +:+ json_file_name in
  r <- attempt
         (lift_option (dump_json w json_file_path topology) ;;
          logging_info "Saved topology JSON to {}" [AStr json_file_path]) ;;
  match r with
  | inl e => logging_error "Failed to write topology JSON: {}" [AExn e]
  | inr _ =>
  let diagram_file_name_mld := timestamp +:+ "_network_diagram_MLD.drawio" in
  let diagram_file_path_mld := "/tmp/" +:+ diagram_file_name_mld in
  let diagram_file_name_hld := timestamp +:+ "_network_diagram_HLD.drawio" in
  let diagram_file_path_hld := "/tmp/" +:+ diagram_file_name_hld in
  lift_option (Config_init w) ;;
  r <- attempt
         (lift_option (generate_mld_diagram w diagram_file_path_mld json_file_path) ;;
          logging_info "Generated MLD diagram at {}" [AStr diagram_file_path_mld] ;;
          lift_option (generate_hld_diagram w diagram_file_path_hld json_file_path) ;;
          logging_info "Generated HLD diagram at {}" [AStr diagram_file_path_hld]) ;;
  match r with
  | inl e => logging_error "Failed to generate diagrams: {}" [AExn e]
  | inr _ =>
  let account_url := environ w !! "DRAWING_STORAGE_URL" in
  let container_name := environ w !! "DRAWING_CONTAINER_NAME" in
  if falsy account_url || falsy container_name then
    logging_error
      ("Storage configuration missing: "
       +:+ "DRAWING_STORAGE_URL and DRAWING_CONTAINER_NAME must be set") []
  else
    let account_url := str_of account_url in
    let container_name := str_of container_name in
    lift_option (BlobServiceClient_init w account_url) ;;
    let blob_service_client := mkBlobServiceClient account_url in
    publish_and_meter blob_service_client container_name
      json_file_name json_file_path
      diagram_file_name_mld diagram_file_path_mld
      diagram_file_name_hld diagram_file_path_hld
  end end end end.

End Program.

(** ** Observing a run *)

Definition result_of {A} (o : (exn + A) * state * list event) : exn + A := o.1.1.
Definition state_of {A} (o : (exn + A) * state * list event) : state := o.1.2.
Definition trace_of {A} (o : (exn + A) * state * list event) : list event := o.2.


(** *** The Coordinator's part of a trace

    The metered billing logic starts with the marker query, the only
    [get_blob_properties] call of the program. *)
Fixpoint coordinator_events (tr : list event) : list event :=
  match tr with
  | [] => []
  | EvGetBlobProperties b raised :: rest => EvGetBlobProperties b raised :: rest
  | _ :: rest => coordinator_events rest
  end.

Definition metering_entered (tr : list event) : bool :=
  match coordinator_events tr with
  | [] => false
  | _ :: _ => true
  end.

(** The marker query of a run: the object it addressed and what the
    storage call raised. *)
Definition marker_query (tr : list event) : option (blob_ref * option exn) :=
  match coordinator_events tr with
  | EvGetBlobProperties b raised :: _ => Some (b, raised)
  | _ => None
  end.

Definition is_call_to (p : endpoint -> bool) (ev : event) : bool :=
  match ev with
  | EvRequest r _ => p (req_endpoint r)
  | _ => false
  end.

Definition is_token (ep : endpoint) : bool :=
  match ep with TokenEndpoint => true | _ => false end.
Definition is_resolution (ep : endpoint) : bool :=
  match ep with ResolutionEndpoint _ _ => true | _ => false end.
Definition is_emission (ep : endpoint) : bool :=
  match ep with EmissionEndpoint => true | _ => false end.

(** Calls to the Token Provider, the Resource Resolver and the Usage
    Emitter recorded in a trace. *)
Definition token_calls (tr : list event) : list event :=
  List.filter (is_call_to is_token) tr.
Definition resolution_calls (tr : list event) : list event :=
  List.filter (is_call_to is_resolution) tr.
Definition emission_calls (tr : list event) : list event :=
  List.filter (is_call_to is_emission) tr.
Definition downstream_calls (tr : list event) : list event :=
  List.filter (is_call_to (fun _ => true)) tr.

Definition is_upload (ev : event) : bool :=
  match ev with
  | EvUploadBlob _ _ _ => true
  | _ => false
  end.

(** Blob writes attempted by the Coordinator: the marker writes. *)
Definition marker_writes (tr : list event) : list event :=
  List.filter is_upload (coordinator_events tr).

(** *** Terminal states

    The source has no value for the terminal states of the Coordinator's
    state machine; they are read off the trace: the log record that ends the
    metered billing logic and, for a failure, the last interaction before
    it. [FailedMarkerQuery] is the failure of the first step. *)
Inductive terminal : Type :=
| SkippedAlreadyBilled
| SkippedMissingConfig
| FailedMarkerQuery
| FailedAuth
| FailedResolution
| FailedEmission
| FailedMarkerWrite
| Billed.

Definition failed_after (last : event) : terminal :=
  match last with
  | EvRequest r _ =>
      match req_endpoint r with
      | TokenEndpoint => FailedAuth
      | ResolutionEndpoint _ _ => FailedResolution
      | EmissionEndpoint => FailedEmission
      end
  | EvUploadBlob _ _ _ => FailedMarkerWrite
  | _ => FailedMarkerQuery
  end.

Fixpoint classify (last : event) (tr : list event) : option terminal :=
  match tr with
  | [] => None
  | EvLog lvl fmt args :: rest =>
      if String.eqb fmt msg_already_billed then Some SkippedAlreadyBilled
      else if String.eqb fmt msg_missing_config then Some SkippedMissingConfig
      else if String.eqb fmt msg_submitted then Some Billed
      else if String.eqb fmt msg_metering_failed then Some (failed_after last)
      else classify last rest
  | ev :: rest => classify ev rest
  end.

Definition terminal_state (tr : list event) : option terminal :=
  match coordinator_events tr with
  | [] => None
  | query :: rest => classify query rest
  end.

(** ** The leaf operations as equations

    Names for what the leaf operations compute, used to state their
    equations. *)

(** The state after one clock read. *)
Definition tick (s : state) : state := mkState (blobs s) (S (ticks s)).

(** What the marker query raises in state [s]. *)
Definition query_raises (w : world) (s : state) (b : blob_ref) : option exn :=
  match get_blob_properties_fault w b with
  | Some e => Some e
  | None =>
      match blobs s !! b with
      | Some _ => None
      | None => Some ResourceNotFoundError
      end
  end.

(** The marker object of the day of a clock reading. *)
Definition marker_of (c : BlobServiceClient) (cn : string) (t : datetime) : blob_ref :=
  get_blob_client c cn (marker_blob_name (strftime_date t)).

Definition token_request : request :=
  mkRequest GET TokenEndpoint [("Metadata", HLit "true")] None 5.

Definition resolution_request (subscription_id rg_name : string) (token : json) : request :=
  mkRequest GET (ResolutionEndpoint subscription_id rg_name)
    [("Authorization", HBearer token)] None 10.

Definition emission_request (resource_id : json) (plan_id : string) (token : json)
    (now : datetime) : request :=
  mkRequest POST EmissionEndpoint
    [("Authorization", HBearer token); ("Content-Type", HLit "application/json")]
    (Some (JObj [("resourceId", resource_id); ("dimension", JStr "dailyRun");
                 ("quantity", JNum 1);
                 ("effectiveStartTime", JStr (strftime_iso now));
                 ("planId", JStr plan_id)]))
    10.

(** The value or exception that the response to a request leads to:
    [raise_for_status], then [json()], then the optional subscript. *)
Definition decode (res : http_result) (field : option string) : exn + json :=
  match res with
  | RequestFailed e => inl e
  | Response status_code body =>
      if decide (400 <= status_code < 600)%Z then inl (HTTPError status_code)
      else
        match body with
        | None => inl JSONDecodeError
        | Some v =>
            match field with
            | Some key => py_getitem v key
            | None => inr v
            end
        end
  end.

(** ** The Coordinator, run symbolically

    [metering_run] lists every path through the metered billing logic with
    its result, final state and trace; [metering_unfold] below proves that
    it is what [metering] computes. *)

Definition failure_log (e : exn) : event := EvLog ERROR msg_metering_failed [AExn e].

Definition metering_run (w : world) (c : BlobServiceClient) (cn : string) (s : state)
  : (exn + unit) * state * list event :=
  let b := marker_of c cn (clock w (ticks s)) in
  let query := EvGetBlobProperties b (query_raises w s b) in
  match query_raises w s b with
  | None => (inr tt, tick s, [query; EvLog INFO msg_already_billed []])
  | Some e =>
      if is_ResourceNotFoundError e then
        let token := EvRequest token_request (http w token_request) in
        match decode (http w token_request) (Some "access_token") with
        | inl e1 => (inr tt, tick s, [query; token; failure_log e1])
        | inr msi_token =>
            let subscription_id := environ w !! "SUBSCRIPTION_ID" in
            let rg_name := environ w !! "RESOURCE_GROUP_NAME" in
            let plan_id := environ w !! "PLAN_ID" in
            if falsy subscription_id || falsy rg_name || falsy plan_id then
              (inr tt, tick s, [query; token; EvLog ERROR msg_missing_config []])
            else
              let rq := resolution_request (str_of subscription_id)
                          (str_of rg_name) msi_token in
              let resolve := EvRequest rq (http w rq) in
              match decode (http w rq) (Some "managedBy") with
              | inl e2 => (inr tt, tick s, [query; token; resolve; failure_log e2])
              | inr resource_id =>
                  let er := emission_request resource_id (str_of plan_id)
                              msi_token (clock w (S (ticks s))) in
                  let emission := EvRequest er (http w er) in
                  match decode (http w er) None with
                  | inl e3 =>
                      (inr tt, tick (tick s),
                       [query; token; resolve; emission; failure_log e3])
                  | inr _ =>
                      let b' := marker_of c cn (clock w (S (S (ticks s)))) in
                      match upload_blob_fault w b' with
                      | Some e4 =>
                          (inr tt, tick (tick (tick s)),
                           [query; token; resolve; emission;
                            EvUploadBlob b' [] (Some e4); failure_log e4])
                      | None =>
                          (inr tt,
                           mkState (<[b' := []]> (blobs s)) (S (S (S (ticks s)))),
                           [query; token; resolve; emission;
                            EvUploadBlob b' [] None; EvLog INFO msg_submitted []])
                      end
                  end
              end
        end
      else (inr tt, tick s, [query; failure_log e])
  end.

(** At least one of the three metering variables is absent (or empty). *)
Definition metering_config_missing (w : world) : bool :=
  falsy (environ w !! "SUBSCRIPTION_ID")
  || falsy (environ w !! "RESOURCE_GROUP_NAME")
  || falsy (environ w !! "PLAN_ID").

(** ** The stages before the Coordinator *)

(** The names [main] gives to the artifacts of a run whose first clock
    reading is [t]. *)
Definition json_file_name (t : datetime) : string :=
  strftime_stamp t +:+ "_network_topology.json".
Definition diagram_file_name_mld (t : datetime) : string :=
  strftime_stamp t +:+ "_network_diagram_MLD.drawio".
Definition diagram_file_name_hld (t : datetime) : string :=
  strftime_stamp t +:+ "_network_diagram_HLD.drawio".
Definition tmp_path (name : string) : string := "/tmp/" +:+ name.

(** The storage client and container a run is configured with. *)
Definition storage_client (w : world) : BlobServiceClient :=
  mkBlobServiceClient (str_of (environ w !! "DRAWING_STORAGE_URL")).
Definition storage_container (w : world) : string :=
  str_of (environ w !! "DRAWING_CONTAINER_NAME").

Definition no_exn (o : option exn) : bool :=
  match o with
  | None => true
  | Some _ => false
  end.

(** Every stage that precedes the uploads succeeds: subscription
    enumeration, topology collection, writing the topology JSON, the
    diagram configuration, both diagrams, the storage configuration and the
    storage client. *)
Definition early_stages_ok (w : world) (s : state) : bool :=
  let t := clock w (ticks s) in
  match get_all_subscription_ids w with
  | inl _ => false
  | inr subscription_ids =>
      match get_vnet_topology_for_selected_subscriptions w subscription_ids with
      | inl _ => false
      | inr topology =>
          no_exn (dump_json w (tmp_path (json_file_name t)) topology)
          && no_exn (Config_init w)
          && no_exn (generate_mld_diagram w (tmp_path (diagram_file_name_mld t))
                       (tmp_path (json_file_name t)))
          && no_exn (generate_hld_diagram w (tmp_path (diagram_file_name_hld t))
                       (tmp_path (json_file_name t)))
          && negb (falsy (environ w !! "DRAWING_STORAGE_URL"))
          && negb (falsy (environ w !! "DRAWING_CONTAINER_NAME"))
          && no_exn (BlobServiceClient_init w (str_of (environ w !! "DRAWING_STORAGE_URL")))
      end
  end.


Definition is_log (ev : event) : bool :=
  match ev with
  | EvLog _ _ _ => true
  | _ => false
  end.

(** Events of the stages before the Coordinator: log records and blob
    uploads. *)
Definition artifact_event (ev : event) : bool :=
  match ev with
  | EvLog _ _ _ | EvUploadBlob _ _ _ => true
  | _ => false
  end.

Definition closing_log : event :=
  EvLog INFO "DrawTrigger function execution completed successfully" [].

(** The log records of the stages before the uploads, when all succeed. *)
Definition startup_log (w : world) (s : state) : list event :=
  let t := clock w (ticks s) in
  [EvLog INFO "DrawTrigger function triggered" [];
   EvLog INFO "Found {} subscriptions: {}"
     match get_all_subscription_ids w with
     | inr ids => [ANat (length ids); AStrs ids]
     | inl _ => []
     end;
   EvLog INFO "Saved topology JSON to {}" [AStr (tmp_path (json_file_name t))];
   EvLog INFO "Generated MLD diagram at {}" [AStr (tmp_path (diagram_file_name_mld t))];
   EvLog INFO "Generated HLD diagram at {}" [AStr (tmp_path (diagram_file_name_hld t))]].

(** What [upload_file] reported for each artifact: the blob name, and the
    exception when the upload failed. *)
Definition upload_report (ev : event) : list (string * option exn) :=
  match ev with
  | EvLog INFO fmt [AStr blob_name] =>
      if String.eqb fmt "Uploaded {} to Blob Storage" then [(blob_name, None)] else []
  | EvLog ERROR fmt [AStr blob_name; AExn e] =>
      if String.eqb fmt "Failed to upload {}: {}" then [(blob_name, Some e)] else []
  | _ => []
  end.

Definition upload_reports (tr : list event) : list (string * option exn) :=
  flat_map upload_report tr.

(** ** The blob store across runs *)

(** No blob of [s] is missing from [s']. *)
Definition keeps_blobs (s s' : state) : Prop :=
  forall b, is_Some (blobs s !! b) -> is_Some (blobs s' !! b).

(** The state after the later runs of the program, one per world. *)
Definition run_all (later : list world) (s : state) : state :=
  fold_left (fun st w => state_of (main w st)) later s.

(** ** Days and marker names *)

(** [%Y-%m-%d] of a calendar day. *)
Definition format_date (d : date) : string :=
  let '(y, m, dd) := d in
  pad4 y +:+ "-" +:+ pad2 m +:+ "-" +:+ pad2 dd.

(** The marker object of day [d]: [billing/dailyRun_<d>.marker] in the
    container. *)
Definition day_marker (c : BlobServiceClient) (cn : string) (d : date) : blob_ref :=
  get_blob_client c cn ("billing/dailyRun_" +:+ format_date d +:+ ".marker").

(** Days within (a superset of) the range of [datetime], on which
    [%Y-%m-%d] is injective. *)
Definition printable_date (d : date) : Prop :=
  let '(y, m, dd) := d in
  (0 <= y < 100000 /\ 0 <= m < 100 /\ 0 <= dd < 100)%Z.

(** ** Sample runs *)

Definition sample_environ : gmap string string :=
  list_to_map [
    ("DRAWING_STORAGE_URL", "https://acct.blob.core.windows.net");
    ("DRAWING_CONTAINER_NAME", "drawings");
    ("SUBSCRIPTION_ID", "sub-1");
    ("RESOURCE_GROUP_NAME", "rg-1");
    ("PLAN_ID", "plan-1") ].

(** Every endpoint answers 200 with the expected document. *)
Definition sample_http (r : request) : http_result :=
  match req_endpoint r with
  | TokenEndpoint => Response 200 (Some (JObj [("access_token", JStr "tok")]))
  | ResolutionEndpoint _ _ => Response 200 (Some (JObj [("managedBy", JStr "app-1")]))
  | EmissionEndpoint => Response 200 (Some (JObj [("status", JStr "Accepted")]))
  end.

Definition sample_clock (n : nat) : datetime := mkDatetime 2026 11 4 13 5 9.

(** A world in which the topology, the diagrams and the storage client
    succeed; the rest is given. *)
Definition sample_world_with (env : gmap string string) (clk : nat -> datetime)
    (subs : exn + list string) (read : string -> exn + bytes)
    (up_fault : blob_ref -> option exn) (h : request -> http_result) : world :=
  {| environ := env;
     clock := clk;
     get_all_subscription_ids := subs;
     get_vnet_topology_for_selected_subscriptions := fun _ => inr (JObj []);
     dump_json := fun _ _ => None;
     Config_init := None;
     generate_mld_diagram := fun _ _ => None;
     generate_hld_diagram := fun _ _ => None;
     read_file := read;
     BlobServiceClient_init := fun _ => None;
     get_blob_properties_fault := fun _ => None;
     upload_blob_fault := up_fault;
     http := h |}.

(** Everything succeeds. *)
Definition sample_world : world :=
  sample_world_with sample_environ sample_clock (inr ["sub-1"])
    (fun _ => inr []) (fun _ => None) sample_http.

Definition empty_store : state := mkState ∅ 0.

(** A store that holds the marker of 2026-11-04. *)
Definition already_billed : state :=
  mkState {[ marker_of (storage_client sample_world) (storage_container sample_world)
               (sample_clock 0) := [] ]} 0.

(** Subscription enumeration raises. *)
Definition failing_enumeration : world :=
  sample_world_with sample_environ sample_clock
    (inl (OtherException "subscription listing failed"))
    (fun _ => inr []) (fun _ => None) sample_http.

(** No artifact file can be read back for upload. *)
Definition failing_uploads : world :=
  sample_world_with sample_environ sample_clock (inr ["sub-1"])
    (fun _ => inl (OSError "unreadable")) (fun _ => None) sample_http.

(** The token endpoint answers 500. *)
Definition failing_token : world :=
  sample_world_with sample_environ sample_clock (inr ["sub-1"])
    (fun _ => inr []) (fun _ => None)
    (fun r => match req_endpoint r with
              | TokenEndpoint => Response 500 None
              | _ => sample_http r
              end).

(** The emission endpoint answers 503. *)
Definition failing_emission : world :=
  sample_world_with sample_environ sample_clock (inr ["sub-1"])
    (fun _ => inr []) (fun _ => None)
    (fun r => match req_endpoint r with
              | EmissionEndpoint => Response 503 None
              | _ => sample_http r
              end).

(** [PLAN_ID] is not set. *)
Definition without_plan_id : world :=
  sample_world_with (delete "PLAN_ID" sample_environ) sample_clock (inr ["sub-1"])
    (fun _ => inr []) (fun _ => None) sample_http.

(** A clock that passes midnight between the check and the write. *)
Definition midnight_clock (n : nat) : datetime :=
  if (n <? 3)%nat then mkDatetime 2026 11 4 23 59 59
  else mkDatetime 2026 11 5 0 0 1.

Definition across_midnight : world :=
  sample_world_with sample_environ midnight_clock (inr ["sub-1"])
    (fun _ => inr []) (fun _ => None) sample_http.

(** ** Further definitions *)

(** The years of Python's [datetime]. *)
Definition year_in_range (t : datetime) : Prop := (1 <= year t <= 9999)%Z.

(** The state in which the Coordinator of a run starts: after the first
    clock read and the three uploads. *)
Definition after_uploads (w : world) (s : state) : state :=
  let t := clock w (ticks s) in
  let c := storage_client w in
  let cn := storage_container w in
  state_of
    (upload_file w c cn (diagram_file_name_hld t) (tmp_path (diagram_file_name_hld t))
       (state_of
          (upload_file w c cn (diagram_file_name_mld t)
             (tmp_path (diagram_file_name_mld t))
             (state_of
                (upload_file w c cn (json_file_name t) (tmp_path (json_file_name t))
                   (tick s)))))).

(** The three artifact blobs of a run. *)
Definition artifact_refs (w : world) (s : state) : list blob_ref :=
  let t := clock w (ticks s) in
  [get_blob_client (storage_client w) (storage_container w) (json_file_name t);
   get_blob_client (storage_client w) (storage_container w) (diagram_file_name_mld t);
   get_blob_client (storage_client w) (storage_container w) (diagram_file_name_hld t)].

(** ** Further sample runs *)

(** The resource group is described without a [managedBy] member. *)
Definition unmanaged_group : world :=
  sample_world_with sample_environ sample_clock (inr ["sub-1"])
    (fun _ => inr []) (fun _ => None)
    (fun r => match req_endpoint r with
              | ResolutionEndpoint _ _ =>
                  Response 200 (Some (JObj [("name", JStr "rg-1")]))
              | _ => sample_http r
              end).

(** The emission endpoint answers 200 with a body that is not JSON. *)
Definition accepted_without_body : world :=
  sample_world_with sample_environ sample_clock (inr ["sub-1"])
    (fun _ => inr []) (fun _ => None)
    (fun r => match req_endpoint r with
              | EmissionEndpoint => Response 200 None
              | _ => sample_http r
              end).

(** The marker write is refused; the artifacts are stored. *)
Definition refused_marker_write : world :=
  sample_world_with sample_environ sample_clock (inr ["sub-1"])
    (fun _ => inr [])
    (fun b => if String.prefix "billing/" b.2 then Some (HttpResponseError 503)
              else None)
    sample_http.

(** The storage service fails on every marker query. *)
Definition storage_outage : world :=
  {| environ := sample_environ;
     clock := sample_clock;
     get_all_subscription_ids := inr ["sub-1"];
     get_vnet_topology_for_selected_subscriptions := fun _ => inr (JObj []);
     dump_json := fun _ _ => None;
     Config_init := None;
     generate_mld_diagram := fun _ _ => None;
     generate_hld_diagram := fun _ _ => None;
     read_file := fun _ => inr [];
     BlobServiceClient_init := fun _ => None;
     get_blob_properties_fault := fun _ => Some ServiceRequestError;
     upload_blob_fault := fun _ => None;
     http := sample_http |}.

(** The diagram configuration cannot be loaded. *)
Definition broken_config : world :=
  {| environ := sample_environ;
     clock := sample_clock;
     get_all_subscription_ids := inr ["sub-1"];
     get_vnet_topology_for_selected_subscriptions := fun _ => inr (JObj []);
     dump_json := fun _ _ => None;
     Config_init := Some (OSError "config.yaml");
     generate_mld_diagram := fun _ _ => None;
     generate_hld_diagram := fun _ _ => None;
     read_file := fun _ => inr [];
     BlobServiceClient_init := fun _ => None;
     get_blob_properties_fault := fun _ => None;
     upload_blob_fault := fun _ => None;
     http := sample_http |}.

(** ** Equations of the leaf operations *)

#[local] Arguments marker_blob_name : simpl never.
#[local] Arguments strftime_date : simpl never.
#[local] Arguments strftime_stamp : simpl never.
#[local] Arguments strftime_iso : simpl never.
#[local] Arguments String.append : simpl never.

Lemma has_billed_today_eq w c cn s :
  has_billed_today w c cn s =
  (match query_raises w s (marker_of c cn (clock w (ticks s))) with
   | None => inr true
   | Some e => if is_ResourceNotFoundError e then inr false else inl e
   end, tick s,
   [EvGetBlobProperties (marker_of c cn (clock w (ticks s)))
      (query_raises w s (marker_of c cn (clock w (ticks s))))]).
Proof.
  unfold has_billed_today, try_except, bind, utcnow, get_blob_properties,
    query_raises, marker_of, tick, ret.
  cbn.
  destruct (get_blob_properties_fault w _) as [e|]; cbn.
  - destruct (is_ResourceNotFoundError e); reflexivity.
  - destruct (blobs s !! _); reflexivity.
Qed.

Lemma mark_billed_today_eq w c cn s :
  mark_billed_today w c cn s =
  match upload_blob_fault w (marker_of c cn (clock w (ticks s))) with
  | Some e =>
      (inl e, tick s, [EvUploadBlob (marker_of c cn (clock w (ticks s))) [] (Some e)])
  | None =>
      (inr tt,
       mkState (<[marker_of c cn (clock w (ticks s)) := []]> (blobs s)) (S (ticks s)),
       [EvUploadBlob (marker_of c cn (clock w (ticks s))) [] None])
  end.
Proof.
  unfold mark_billed_today, bind, utcnow, upload_blob, marker_of, tick.
  cbn.
  destruct (upload_blob_fault w _); reflexivity.
Qed.

Lemma get_msi_token_eq w s :
  get_msi_token w s =
  (decode (http w token_request) (Some "access_token"), s,
   [EvRequest token_request (http w token_request)]).
Proof.
  unfold get_msi_token, bind, requests_send, raise_for_status, response_json,
    decode.
  fold token_request.
  destruct (http w token_request) as [e|status_code body]; cbn; [reflexivity|].
  destruct (decide _); cbn; [reflexivity|].
  destruct body as [v|]; cbn; [|reflexivity].
  destruct (py_getitem v "access_token"); reflexivity.
Qed.

Lemma get_managed_app_resource_id_eq w sid rg tok s :
  get_managed_app_resource_id w sid rg tok s =
  (decode (http w (resolution_request sid rg tok)) (Some "managedBy"), s,
   [EvRequest (resolution_request sid rg tok)
      (http w (resolution_request sid rg tok))]).
Proof.
  unfold get_managed_app_resource_id, bind, requests_send, raise_for_status,
    response_json, decode.
  fold (resolution_request sid rg tok).
  destruct (http w (resolution_request sid rg tok)) as [e|status_code body];
    cbn; [reflexivity|].
  destruct (decide _); cbn; [reflexivity|].
  destruct body as [v|]; cbn; [|reflexivity].
  destruct (py_getitem v "managedBy"); reflexivity.
Qed.

Lemma emit_meter_event_eq w rid plan tok s :
  emit_meter_event w rid plan tok s =
  (decode (http w (emission_request rid plan tok (clock w (ticks s)))) None,
   tick s,
   [EvRequest (emission_request rid plan tok (clock w (ticks s)))
      (http w (emission_request rid plan tok (clock w (ticks s))))]).
Proof.
  unfold emit_meter_event, bind, utcnow, requests_send, raise_for_status,
    response_json, decode, tick.
  cbn.
  fold (emission_request rid plan tok (clock w (ticks s))).
  destruct (http w _) as [e|status_code body]; cbn; [reflexivity|].
  destruct (decide _); cbn; [reflexivity|].
  destruct body as [v|]; reflexivity.
Qed.

Lemma upload_file_eq w c cn blob_name file_path s :
  upload_file w c cn blob_name file_path s =
  match read_file w file_path with
  | inl e =>
      (inr tt, s, [EvLog ERROR "Failed to upload {}: {}" [AStr blob_name; AExn e]])
  | inr data =>
      match upload_blob_fault w (get_blob_client c cn blob_name) with
      | Some e =>
          (inr tt, s,
           [EvUploadBlob (get_blob_client c cn blob_name) data (Some e);
            EvLog ERROR "Failed to upload {}: {}" [AStr blob_name; AExn e]])
      | None =>
          (inr tt,
           mkState (<[get_blob_client c cn blob_name := data]> (blobs s)) (ticks s),
           [EvUploadBlob (get_blob_client c cn blob_name) data None;
            EvLog INFO "Uploaded {} to Blob Storage" [AStr blob_name]])
      end
  end.
Proof.
  unfold upload_file, try_except, bind, upload_blob, lift_sum.
  destruct (read_file w file_path) as [e|data]; cbn; [reflexivity|].
  destruct (upload_blob_fault w _); reflexivity.
Qed.

Lemma metering_unfold w c cn s : metering w c cn s = metering_run w c cn s.
Proof.
  unfold metering, metering_body, metering_run, try_except, bind.
  rewrite has_billed_today_eq.
  destruct (query_raises w s _) as [e|]; [|reflexivity].
  destruct (is_ResourceNotFoundError e); [|reflexivity].
  rewrite get_msi_token_eq.
  destruct (decode (http w token_request) _) as [e1|msi_token]; [reflexivity|].
  destruct (falsy _ || falsy _ || falsy _); [reflexivity|].
  rewrite get_managed_app_resource_id_eq.
  destruct (decode (http w (resolution_request _ _ _)) _) as [e2|resource_id];
    [reflexivity|].
  rewrite emit_meter_event_eq. cbn [ticks tick].
  destruct (decode (http w (emission_request _ _ _ _)) _) as [e3|ack];
    [reflexivity|].
  rewrite mark_billed_today_eq. cbn [ticks tick blobs].
  destruct (upload_blob_fault w _) as [e4|]; reflexivity.
Qed.

Lemma main_early_failure w s :
  early_stages_ok w s = false ->
  exists r tr,
    main w s = (r, tick s, tr) /\ forallb is_log tr = true.
Proof.
  unfold early_stages_ok, main, attempt, try_except, bind, utcnow, tick,
    logging_info, logging_error, emit, lift_sum, lift_option, ret, raise,
    json_file_name, diagram_file_name_mld, diagram_file_name_hld, tmp_path.
  cbn.
  destruct (get_all_subscription_ids w) as [e|ids]; cbn; [eauto|].
  destruct (get_vnet_topology_for_selected_subscriptions w ids) as [e|topology];
    cbn; [eauto|].
  destruct (dump_json w _ topology) as [e|]; cbn; [eauto|].
  destruct (Config_init w) as [e|]; cbn; [eauto|].
  destruct (generate_mld_diagram w _ _) as [e|]; cbn; [eauto|].
  destruct (generate_hld_diagram w _ _) as [e|]; cbn; [eauto|].
  destruct (falsy (environ w !! "DRAWING_STORAGE_URL")); cbn; [eauto|].
  destruct (falsy (environ w !! "DRAWING_CONTAINER_NAME")); cbn; [eauto|].
  destruct (BlobServiceClient_init w _) as [e|]; cbn; [eauto|].
  discriminate.
Qed.

Lemma metering_returns w c cn s : result_of (metering w c cn s) = inr tt.
Proof.
  rewrite metering_unfold. unfold metering_run.
  repeat (match goal with
          | |- context [match ?x with _ => _ end] => destruct x
          end; try reflexivity).
Qed.

Lemma upload_file_returns w c cn blob_name file_path s :
  result_of (upload_file w c cn blob_name file_path s) = inr tt.
Proof.
  rewrite upload_file_eq.
  destruct (read_file w file_path); [reflexivity|].
  destruct (upload_blob_fault w _); reflexivity.
Qed.

Lemma trace_of_mk {A} (r : exn + A) s t : trace_of (r, s, t) = t.
Proof. reflexivity. Qed.

Lemma state_of_mk {A} (r : exn + A) s t : state_of (r, s, t) = s.
Proof. reflexivity. Qed.

Lemma run_eta {A} (o : (exn + A) * state * list event) :
  o = (result_of o, state_of o, trace_of o).
Proof. destruct o as [[r s] t]. reflexivity. Qed.

Lemma publish_and_meter_eq w c cn jn jp mn mp hn hp s :
  publish_and_meter w c cn jn jp mn mp hn hp s =
  let u1 := upload_file w c cn jn jp s in
  let u2 := upload_file w c cn mn mp (state_of u1) in
  let u3 := upload_file w c cn hn hp (state_of u2) in
  let m := metering w c cn (state_of u3) in
  (inr tt, state_of m,
   (trace_of u1 ++ trace_of u2 ++ trace_of u3 ++ trace_of m ++ [closing_log])%list).
Proof.
  cbv zeta. unfold publish_and_meter, bind.
  rewrite (run_eta (upload_file w c cn jn jp s)), upload_file_returns.
  rewrite (run_eta (upload_file w c cn mn mp _)), upload_file_returns.
  rewrite (run_eta (upload_file w c cn hn hp _)), upload_file_returns.
  rewrite (run_eta (metering w c cn _)), metering_returns.
  reflexivity.
Qed.

Lemma main_early_success w s :
  early_stages_ok w s = true ->
  main w s =
  let t := clock w (ticks s) in
  let p := publish_and_meter w (storage_client w) (storage_container w)
             (json_file_name t) (tmp_path (json_file_name t))
             (diagram_file_name_mld t) (tmp_path (diagram_file_name_mld t))
             (diagram_file_name_hld t) (tmp_path (diagram_file_name_hld t))
             (tick s) in
  (result_of p, state_of p, (startup_log w s ++ trace_of p)%list).
Proof.
  unfold early_stages_ok, startup_log, main, attempt, try_except, bind, utcnow, tick,
    logging_info, logging_error, emit, lift_sum, lift_option, ret, raise,
    json_file_name, diagram_file_name_mld, diagram_file_name_hld, tmp_path,
    storage_client, storage_container.
  cbn.
  destruct (get_all_subscription_ids w) as [e|ids]; cbn; [discriminate|].
  destruct (get_vnet_topology_for_selected_subscriptions w ids) as [e|topology];
    cbn; [discriminate|].
  destruct (dump_json w _ topology) as [e|]; cbn; [discriminate|].
  destruct (Config_init w) as [e|]; cbn; [discriminate|].
  destruct (generate_mld_diagram w _ _) as [e|]; cbn; [discriminate|].
  destruct (generate_hld_diagram w _ _) as [e|]; cbn; [discriminate|].
  destruct (falsy (environ w !! "DRAWING_STORAGE_URL")); cbn; [discriminate|].
  destruct (falsy (environ w !! "DRAWING_CONTAINER_NAME")); cbn; [discriminate|].
  destruct (BlobServiceClient_init w _) as [e|]; cbn; [discriminate|].
  intros _.
  match goal with
  | |- context [publish_and_meter ?a ?b ?c ?d ?e ?f ?g ?h ?i ?j] =>
      destruct (publish_and_meter a b c d e f g h i j) as [[r s'] tr]
  end.
  reflexivity.
Qed.

(** ** Traces of a run *)

Lemma coordinator_events_skip pre tr :
  forallb artifact_event pre = true ->
  coordinator_events (pre ++ tr) = coordinator_events tr.
Proof.
  induction pre as [|ev pre IH]; cbn; [reflexivity|].
  destruct ev; cbn; try discriminate; exact IH.
Qed.

Lemma calls_skip p pre tr :
  forallb artifact_event pre = true ->
  List.filter (is_call_to p) (pre ++ tr) = List.filter (is_call_to p) tr.
Proof.
  induction pre as [|ev pre IH]; cbn; [reflexivity|].
  destruct ev; cbn; try discriminate; exact IH.
Qed.

Lemma upload_file_trace w c cn blob_name file_path s :
  forallb artifact_event (trace_of (upload_file w c cn blob_name file_path s)) = true.
Proof.
  rewrite upload_file_eq.
  destruct (read_file w file_path); [reflexivity|].
  destruct (upload_blob_fault w _); reflexivity.
Qed.

Lemma upload_file_ticks w c cn blob_name file_path s :
  ticks (state_of (upload_file w c cn blob_name file_path s)) = ticks s.
Proof.
  rewrite upload_file_eq.
  destruct (read_file w file_path); [reflexivity|].
  destruct (upload_blob_fault w _); reflexivity.
Qed.

Lemma keeps_blobs_refl s : keeps_blobs s s.
Proof. intros b H. exact H. Qed.

Lemma keeps_blobs_trans s1 s2 s3 :
  keeps_blobs s1 s2 -> keeps_blobs s2 s3 -> keeps_blobs s1 s3.
Proof. intros H12 H23 b H. apply H23, H12, H. Qed.

Lemma keeps_blobs_insert (m : gmap blob_ref bytes) b data n n' :
  keeps_blobs (mkState m n) (mkState (<[b := data]> m) n').
Proof.
  intros b' H. cbn in *.
  destruct (decide (b = b')) as [->|Hne].
  - rewrite lookup_insert_eq. eauto.
  - rewrite lookup_insert_ne by exact Hne. exact H.
Qed.

Lemma upload_file_keeps w c cn blob_name file_path s :
  keeps_blobs s (state_of (upload_file w c cn blob_name file_path s)).
Proof.
  rewrite upload_file_eq.
  destruct (read_file w file_path); [apply keeps_blobs_refl|].
  destruct (upload_blob_fault w _); [apply keeps_blobs_refl|].
  destruct s. apply keeps_blobs_insert.
Qed.

Lemma metering_keeps w c cn s : keeps_blobs s (state_of (metering w c cn s)).
Proof.
  rewrite metering_unfold. unfold metering_run.
  repeat (match goal with
          | |- context [match ?x with _ => _ end] => destruct x
          end; try (intros b H; exact H)).
  destruct s. apply keeps_blobs_insert.
Qed.

(** A run whose early stages succeed: artifact events, then the
    Coordinator started in a state one clock read later, then the closing
    log record. *)
Lemma main_shape w s :
  early_stages_ok w s = true ->
  exists pre s1,
    forallb artifact_event pre = true /\
    ticks s1 = S (ticks s) /\
    keeps_blobs s s1 /\
    main w s =
    (inr tt, state_of (metering w (storage_client w) (storage_container w) s1),
     (pre ++ trace_of (metering w (storage_client w) (storage_container w) s1)
        ++ [closing_log])%list).
Proof.
  intros Hok. rewrite (main_early_success w s Hok). cbv zeta.
  rewrite publish_and_meter_eq. cbv zeta.
  set (t := clock w (ticks s)).
  set (c := storage_client w). set (cn := storage_container w).
  set (u1 := upload_file w c cn _ _ (tick s)).
  set (u2 := upload_file w c cn _ _ (state_of u1)).
  set (u3 := upload_file w c cn _ _ (state_of u2)).
  exists (startup_log w s ++ trace_of u1 ++ trace_of u2 ++ trace_of u3)%list,
    (state_of u3).
  split; [|split; [|split]].
  - rewrite !forallb_app. unfold u1, u2, u3.
    rewrite !upload_file_trace. reflexivity.
  - unfold u3, u2, u1. rewrite !upload_file_ticks. reflexivity.
  - apply keeps_blobs_trans with (tick s); [intros b H; exact H|].
    apply keeps_blobs_trans with (state_of u1); [apply upload_file_keeps|].
    apply keeps_blobs_trans with (state_of u2); apply upload_file_keeps.
  - unfold result_of, state_of, trace_of. cbn [fst snd].
    rewrite <- !app_assoc. reflexivity.
Qed.

Lemma metering_trace_head w c cn s :
  exists rest,
    trace_of (metering w c cn s) =
    EvGetBlobProperties (marker_of c cn (clock w (ticks s)))
      (query_raises w s (marker_of c cn (clock w (ticks s)))) :: rest.
Proof.
  rewrite metering_unfold. unfold metering_run.
  repeat (match goal with
          | |- context [match ?x with _ => _ end] => destruct x
          end; try (eexists; reflexivity)).
Qed.

Lemma log_is_artifact tr :
  forallb is_log tr = true -> forallb artifact_event tr = true.
Proof.
  induction tr as [|ev tr IH]; cbn; [reflexivity|].
  destruct ev; cbn; try discriminate; exact IH.
Qed.

Lemma coordinator_events_none tr :
  forallb artifact_event tr = true -> coordinator_events tr = [].
Proof.
  intros H. rewrite <- (app_nil_r tr). rewrite coordinator_events_skip by exact H.
  reflexivity.
Qed.

(** ** Earlier stages and the Coordinator *)

Lemma metering_entered_main w s :
  metering_entered (trace_of (main w s)) = early_stages_ok w s.
Proof.
  destruct (early_stages_ok w s) eqn:Hok.
  - destruct (main_shape w s Hok) as (pre & s1 & Hpre & _ & _ & Hmain).
    rewrite Hmain, trace_of_mk. unfold metering_entered.
    rewrite coordinator_events_skip by exact Hpre.
    destruct (metering_trace_head w (storage_client w) (storage_container w) s1)
      as [rest Hhead].
    rewrite Hhead. reflexivity.
  - destruct (main_early_failure w s Hok) as (r & tr & Hmain & Hlog).
    rewrite Hmain, trace_of_mk. unfold metering_entered.
    rewrite (coordinator_events_none tr (log_is_artifact tr Hlog)).
    reflexivity.
Qed.

Lemma early_failure_only_logs w s :
  early_stages_ok w s = false ->
  forallb is_log (trace_of (main w s)) = true /\
  blobs (state_of (main w s)) = blobs s.
Proof.
  intros Hok.
  destruct (main_early_failure w s Hok) as (r & tr & Hmain & Hlog).
  rewrite Hmain. split; [exact Hlog|reflexivity].
Qed.

Lemma main_returns_after_early_stages w s :
  early_stages_ok w s = true ->
  result_of (main w s) = inr tt /\ last (trace_of (main w s)) = Some closing_log.
Proof.
  intros Hok.
  destruct (main_shape w s Hok) as (pre & s1 & _ & _ & _ & Hmain).
  rewrite Hmain. split; [reflexivity|].
  rewrite trace_of_mk, !app_assoc. apply last_snoc.
Qed.





(** ** Uploads *)







(** ** The Coordinator boundary *)

(** C6: whatever is raised inside the metered billing logic (by the marker
    query, the token request, the resolution request, the emission request
    or the marker write) is caught by the handler around it and logged:
    [metering] always returns normally, its trace is the trace of the
    failed body followed by the error record, and a run that entered the
    metering phase returns normally and ends with its closing log record. *)
Theorem metering_errors_are_caught w s c cn :
  result_of (metering w c cn s) = inr tt /\
  (forall e,
     result_of (metering_body w c cn s) = inl e ->
     state_of (metering w c cn s) = state_of (metering_body w c cn s) /\
     trace_of (metering w c cn s)
     = (trace_of (metering_body w c cn s) ++ [failure_log e])%list) /\
  (metering_entered (trace_of (main w s)) = true ->
   result_of (main w s) = inr tt /\
   last (trace_of (main w s)) = Some closing_log).
Proof.
  split; [apply metering_returns|]. split.
  - intros e He. unfold metering, try_except.
    destruct (metering_body w c cn s) as [[r s1] t1]. cbn in He. subst r.
    cbn. split; reflexivity.
  - rewrite metering_entered_main. apply main_returns_after_early_stages.
Qed.

Lemma metering_errors_are_caught_witness :
  result_of (metering_body failing_token (storage_client failing_token)
               (storage_container failing_token) empty_store)
  = inl (HTTPError 500) /\
  trace_of (metering failing_token (storage_client failing_token)
              (storage_container failing_token) empty_store)
  = (trace_of (metering_body failing_token (storage_client failing_token)
                 (storage_container failing_token) empty_store)
       ++ [failure_log (HTTPError 500)])%list /\
  result_of (main failing_token empty_store) = inr tt.
Proof.
  destruct (metering_errors_are_caught failing_token empty_store
              (storage_client failing_token) (storage_container failing_token))
    as (_ & Hcaught & Hmain).
  split; [vm_compute; reflexivity|]. split.
  - apply Hcaught. vm_compute; reflexivity.
  - apply Hmain. vm_compute; reflexivity.
Defined.

(** ** The Daily Marker Store *)

Lemma get_blob_properties_eq w b s :
  get_blob_properties w b s =
  (match query_raises w s b with Some e => inl e | None => inr tt end, s,
   [EvGetBlobProperties b (query_raises w s b)]).
Proof. reflexivity. Qed.

Lemma is_ResourceNotFoundError_true e :
  is_ResourceNotFoundError e = true <-> e = ResourceNotFoundError.
Proof. destruct e; cbn; split; intros H; congruence. Qed.

(** C7: [has_billed_today] returns [False] exactly when the storage call
    for the marker object of the day raises [ResourceNotFoundError]; any
    other exception of that call leaves [has_billed_today] as it is, and a
    call that returns makes the check return [True]. *)
Theorem has_billed_today_false_iff_not_found w c cn s :
  let b := marker_of c cn (clock w (ticks s)) in
  (result_of (has_billed_today w c cn s) = inr false <->
   result_of (get_blob_properties w b (tick s)) = inl ResourceNotFoundError) /\
  (forall e,
     result_of (get_blob_properties w b (tick s)) = inl e ->
     e <> ResourceNotFoundError ->
     result_of (has_billed_today w c cn s) = inl e) /\
  (result_of (get_blob_properties w b (tick s)) = inr tt ->
   result_of (has_billed_today w c cn s) = inr true).
Proof.
  cbv zeta. rewrite has_billed_today_eq, get_blob_properties_eq.
  unfold result_of. cbn [fst].
  change (query_raises w (tick s)) with (query_raises w s).
  destruct (query_raises w s _) as [e|].
  - destruct (is_ResourceNotFoundError e) eqn:He.
    + apply is_ResourceNotFoundError_true in He. subst e.
      split; [split; reflexivity|]. split; [|discriminate].
      intros e He Hne. congruence.
    + assert (e <> ResourceNotFoundError) as Hne
        by (intros ->; discriminate).
      split; [split; intros H; congruence|]. split; [|discriminate].
      intros e' He' _. congruence.
  - split; [split; discriminate|]. split; [discriminate|reflexivity].
Qed.

Lemma has_billed_today_false_iff_not_found_witness :
  result_of (has_billed_today sample_world (storage_client sample_world)
               (storage_container sample_world) empty_store) = inr false.
Proof.
  apply (proj1 (has_billed_today_false_iff_not_found sample_world
                  (storage_client sample_world) (storage_container sample_world)
                  empty_store)).
  vm_compute; reflexivity.
Defined.

Lemma strftime_date_ext t1 t2 :
  date_of t1 = date_of t2 -> strftime_date t1 = strftime_date t2.
Proof.
  unfold date_of, strftime_date. intros H. injection H as -> -> ->. reflexivity.
Qed.

Lemma marker_of_ext c cn t1 t2 :
  date_of t1 = date_of t2 -> marker_of c cn t1 = marker_of c cn t2.
Proof. intros H. unfold marker_of. rewrite (strftime_date_ext t1 t2 H). reflexivity. Qed.

(** C8: [mark_billed_today] is idempotent. Once the marker of day D has
    been written, writing it again on the same day (whether that second
    write succeeds or fails) leaves the blob store as the first write left
    it: the marker object of D with empty content. *)
Theorem mark_billed_today_idempotent w w' c cn s :
  let once := mark_billed_today w c cn s in
  let twice := mark_billed_today w' c cn (state_of once) in
  result_of once = inr tt ->
  date_of (clock w' (ticks (state_of once))) = date_of (clock w (ticks s)) ->
  blobs (state_of twice) = blobs (state_of once) /\
  blobs (state_of once) !! marker_of c cn (clock w (ticks s)) = Some [].
Proof.
  cbv zeta. rewrite (mark_billed_today_eq w c cn s).
  destruct (upload_blob_fault w _) as [e|]; [discriminate|].
  rewrite !state_of_mk. cbn [ticks]. intros _ Hday.
  rewrite mark_billed_today_eq. cbn [ticks blobs].
  rewrite (marker_of_ext c cn _ _ Hday).
  split; [|apply lookup_insert_eq].
  destruct (upload_blob_fault w' _); rewrite state_of_mk; [reflexivity|].
  apply insert_insert_eq.
Qed.

Lemma mark_billed_today_idempotent_witness :
  blobs (state_of
           (mark_billed_today sample_world (storage_client sample_world)
              (storage_container sample_world)
              (state_of
                 (mark_billed_today sample_world (storage_client sample_world)
                    (storage_container sample_world) empty_store))))
  = blobs (state_of
             (mark_billed_today sample_world (storage_client sample_world)
                (storage_container sample_world) empty_store)) /\
  blobs (state_of
           (mark_billed_today sample_world (storage_client sample_world)
              (storage_container sample_world) empty_store))
    !! marker_of (storage_client sample_world) (storage_container sample_world)
         (clock sample_world 0)
  = Some [].
Proof.
  apply (mark_billed_today_idempotent sample_world sample_world
           (storage_client sample_world) (storage_container sample_world)
           empty_store).
  - reflexivity.
  - reflexivity.
Defined.

Lemma marker_of_day c cn t : marker_of c cn t = day_marker c cn (date_of t).
Proof. reflexivity. Qed.

Lemma digit_inj a b :
  (0 <= a < 200)%Z -> (0 <= b < 200)%Z -> digit a = digit b -> a = b.
Proof.
  intros Ha Hb H. unfold digit in H.
  apply (f_equal nat_of_ascii) in H.
  rewrite !nat_ascii_embedding in H by lia.
  lia.
Qed.

Lemma pad2_inj a b :
  (0 <= a < 100)%Z -> (0 <= b < 100)%Z -> pad2 a = pad2 b -> a = b.
Proof.
  intros Ha Hb H. unfold pad2 in H. injection H as H1 H0.
  apply digit_inj in H1; [|Z.div_mod_to_equations; lia..].
  apply digit_inj in H0; [|Z.div_mod_to_equations; lia..].
  Z.div_mod_to_equations; lia.
Qed.

Lemma pad4_inj a b :
  (0 <= a < 100000)%Z -> (0 <= b < 100000)%Z -> pad4 a = pad4 b -> a = b.
Proof.
  intros Ha Hb H. unfold pad4 in H. injection H as H3 H2 H1 H0.
  apply digit_inj in H3; [|Z.div_mod_to_equations; lia..].
  apply digit_inj in H2; [|Z.div_mod_to_equations; lia..].
  apply digit_inj in H1; [|Z.div_mod_to_equations; lia..].
  apply digit_inj in H0; [|Z.div_mod_to_equations; lia..].
  Z.div_mod_to_equations; lia.
Qed.

Lemma day_marker_inj c cn d1 d2 :
  printable_date d1 -> printable_date d2 ->
  day_marker c cn d1 = day_marker c cn d2 -> d1 = d2.
Proof.
  destruct d1 as [[y1 m1] dd1], d2 as [[y2 m2] dd2].
  intros (Hy1 & Hm1 & Hd1) (Hy2 & Hm2 & Hd2) H.
  unfold day_marker, get_blob_client, format_date, pad4, pad2 in H.
  cbv beta iota fix delta [String.append] in H.
  injection H as H3 H2 H1 H0 Hm10 Hm0 Hd10 Hd0.
  assert (pad4 y1 = pad4 y2) as Hy by (unfold pad4; congruence).
  assert (pad2 m1 = pad2 m2) as Hm by (unfold pad2; congruence).
  assert (pad2 dd1 = pad2 dd2) as Hd by (unfold pad2; congruence).
  apply pad4_inj in Hy; [|assumption..].
  apply pad2_inj in Hm; [|assumption..].
  apply pad2_inj in Hd; [|assumption..].
  congruence.
Qed.

Lemma valid_date_printable d : valid_date d -> printable_date d.
Proof. destruct d as [[y m] dd]. unfold valid_date, printable_date. lia. Qed.

Lemma next_day_printable d : valid_date d -> printable_date (next_day d).
Proof.
  destruct d as [[y m] dd]. unfold valid_date, printable_date, next_day.
  intros (Hy & Hm & Hd).
  destruct (dd <? _)%Z; [lia|]. destruct (m <? 12)%Z; lia.
Qed.

Lemma next_day_neq d : next_day d <> d.
Proof.
  destruct d as [[y m] dd]. unfold next_day.
  destruct (dd <? _)%Z; [intros H; injection H; lia|].
  destruct (m <? 12)%Z; intros H; injection H; lia.
Qed.

Lemma next_day_marker_differs c cn d :
  valid_date d -> day_marker c cn (next_day d) <> day_marker c cn d.
Proof.
  intros Hv H.
  apply day_marker_inj in H;
    [|apply next_day_printable; exact Hv|apply valid_date_printable; exact Hv].
  exact (next_day_neq d H).
Qed.

(** ** Runs seen from the Coordinator *)

Lemma main_coordinator w s :
  early_stages_ok w s = true ->
  exists pre s1,
    forallb artifact_event pre = true /\
    ticks s1 = S (ticks s) /\
    keeps_blobs s s1 /\
    state_of (main w s)
    = state_of (metering_run w (storage_client w) (storage_container w) s1) /\
    trace_of (main w s)
    = (pre ++ trace_of (metering_run w (storage_client w) (storage_container w) s1)
         ++ [closing_log])%list.
Proof.
  intros Hok.
  destruct (main_shape w s Hok) as (pre & s1 & Hpre & Hticks & Hkeep & Hmain).
  exists pre, s1. rewrite Hmain, state_of_mk, trace_of_mk, metering_unfold.
  repeat split; assumption.
Qed.

Lemma main_not_entered w s :
  early_stages_ok w s = false ->
  coordinator_events (trace_of (main w s)) = [] /\
  forall p, List.filter (is_call_to p) (trace_of (main w s)) = [].
Proof.
  intros Hok.
  destruct (main_early_failure w s Hok) as (r & tr & Hmain & Hlog).
  rewrite Hmain, trace_of_mk.
  pose proof (log_is_artifact tr Hlog) as Hart.
  split; [apply coordinator_events_none; exact Hart|].
  intros p. rewrite <- (app_nil_r tr). rewrite calls_skip by exact Hart.
  reflexivity.
Qed.

Lemma split_after_artifacts (pre0 tr pre post : list event) ev :
  forallb artifact_event pre0 = true ->
  artifact_event ev = false ->
  (pre0 ++ tr = pre ++ ev :: post)%list ->
  exists pre', pre = (pre0 ++ pre')%list /\ tr = (pre' ++ ev :: post)%list.
Proof.
  revert pre. induction pre0 as [|a pre0 IH]; intros pre Hart Hev H.
  - exists pre. split; [reflexivity|exact H].
  - cbn in Hart. apply andb_prop in Hart as [Ha Hart].
    destruct pre as [|x pre]; cbn in H; injection H as Hx H.
    + subst a. congruence.
    + subst x. destruct (IH pre Hart Hev H) as (pre' & -> & Htr).
      exists pre'. split; [reflexivity|exact Htr].
Qed.

Lemma call_is_not_artifact p ev :
  is_call_to p ev = true -> artifact_event ev = false.
Proof. destruct ev; cbn; intros H; congruence. Qed.

Ltac metering_paths :=
  unfold metering_run in *;
  repeat match goal with
         | |- context [match ?x with _ => _ end] => destruct x eqn:?
         | |- context [if ?x then _ else _] => destruct x eqn:?
         end.

(** Within the Coordinator's trace, a downstream call comes after the
    marker query, and only when the query was answered "not found". *)
Lemma metering_call_after_query w c cn s pre ev post :
  (trace_of (metering_run w c cn s) ++ [closing_log])%list
  = (pre ++ ev :: post)%list ->
  is_call_to (fun _ => true) ev = true ->
  exists b, marker_query pre = Some (b, Some ResourceNotFoundError).
Proof.
  metering_paths; rewrite trace_of_mk; intros H Hcall;
    try match goal with
        | He : is_ResourceNotFoundError ?e = true |- _ =>
            apply is_ResourceNotFoundError_true in He; subst e
        end;
    (destruct pre as [|x pre]; cbn in H; injection H as Hx H;
     [subst ev; discriminate Hcall|]);
    subst x;
    try (eexists; reflexivity);
    (assert (In ev (pre ++ ev :: post)) as Hin by apply in_elt;
     rewrite <- H in Hin; cbn in Hin;
     repeat destruct Hin as [Hin|Hin]; try contradiction;
     subst ev; discriminate Hcall).
Qed.

Lemma marker_query_skip pre tr :
  forallb artifact_event pre = true -> marker_query (pre ++ tr) = marker_query tr.
Proof. intros H. unfold marker_query. rewrite coordinator_events_skip by exact H. reflexivity. Qed.

Lemma terminal_state_skip pre tr :
  forallb artifact_event pre = true -> terminal_state (pre ++ tr) = terminal_state tr.
Proof. intros H. unfold terminal_state. rewrite coordinator_events_skip by exact H. reflexivity. Qed.

Lemma marker_writes_skip pre tr :
  forallb artifact_event pre = true -> marker_writes (pre ++ tr) = marker_writes tr.
Proof. intros H. unfold marker_writes. rewrite coordinator_events_skip by exact H. reflexivity. Qed.

Ltac not_found_only :=
  try match goal with
      | He : is_ResourceNotFoundError ?e = true |- _ =>
          apply is_ResourceNotFoundError_true in He; subst e
      end.

(** C2: when the marker query of a run finds the marker, the run ends in
    [SkippedAlreadyBilled] with no call to the Token Provider, the Resource
    Resolver or the Usage Emitter and no marker write; and in every run,
    each downstream call is preceded by a marker query that was answered
    "not found". *)
Theorem marker_present_skips_billing w s :
  (forall b,
     marker_query (trace_of (main w s)) = Some (b, None) ->
     terminal_state (trace_of (main w s)) = Some SkippedAlreadyBilled /\
     downstream_calls (trace_of (main w s)) = [] /\
     marker_writes (trace_of (main w s)) = []) /\
  (forall pre ev post,
     trace_of (main w s) = (pre ++ ev :: post)%list ->
     is_call_to (fun _ => true) ev = true ->
     exists b, marker_query pre = Some (b, Some ResourceNotFoundError)).
Proof.
  destruct (early_stages_ok w s) eqn:Hok.
  - destruct (main_coordinator w s Hok) as (pre0 & s1 & Hpre & _ & _ & _ & Htr).
    rewrite Htr. split.
    + intros b. unfold downstream_calls.
      rewrite marker_query_skip, terminal_state_skip, marker_writes_skip,
        calls_skip by exact Hpre.
      metering_paths; rewrite trace_of_mk; intros Hq; cbn in Hq;
        try discriminate Hq.
      repeat split.
    + intros pre ev post H Hcall.
      destruct (split_after_artifacts pre0 _ pre post ev Hpre
                  (call_is_not_artifact _ ev Hcall) H) as (pre' & -> & Hsplit).
      rewrite marker_query_skip by exact Hpre.
      exact (metering_call_after_query w _ _ s1 pre' ev post Hsplit Hcall).
  - destruct (main_not_entered w s Hok) as [Hnone Hcalls]. split.
    + intros b. unfold marker_query. rewrite Hnone. discriminate.
    + intros pre ev post H Hcall. exfalso.
      assert (In ev (List.filter (is_call_to (fun _ => true)) (trace_of (main w s))))
        as Hin by (apply filter_In; split; [rewrite H; apply in_elt|exact Hcall]).
      rewrite Hcalls in Hin. exact Hin.
Qed.

Lemma marker_present_skips_billing_witness :
  terminal_state (trace_of (main sample_world already_billed))
  = Some SkippedAlreadyBilled /\
  downstream_calls (trace_of (main sample_world already_billed)) = [] /\
  marker_writes (trace_of (main sample_world already_billed)) = [].
Proof.
  apply (proj1 (marker_present_skips_billing sample_world already_billed)
           (marker_of (storage_client sample_world) (storage_container sample_world)
              (sample_clock 0))).
  vm_compute; reflexivity.
Defined.

(** ** Missing configuration *)

(** C1 (as amended): with the marker absent and a metering variable
    missing, the Coordinator still calls the token endpoint, once, before
    it looks at the configuration. It makes no call to the resolution or
    emission endpoints and no marker write; it ends in
    [SkippedMissingConfig] when the token was obtained, and in [FailedAuth]
    when the token request failed. *)
Theorem missing_config_stops_after_token w s b :
  metering_config_missing w = true ->
  marker_query (trace_of (main w s)) = Some (b, Some ResourceNotFoundError) ->
  token_calls (trace_of (main w s))
  = [EvRequest token_request (http w token_request)] /\
  resolution_calls (trace_of (main w s)) = [] /\
  emission_calls (trace_of (main w s)) = [] /\
  marker_writes (trace_of (main w s)) = [] /\
  (forall token,
     result_of (get_msi_token w s) = inr token ->
     terminal_state (trace_of (main w s)) = Some SkippedMissingConfig) /\
  (forall e,
     result_of (get_msi_token w s) = inl e ->
     terminal_state (trace_of (main w s)) = Some FailedAuth).
Proof.
  intros Hmissing. unfold metering_config_missing in Hmissing.
  rewrite get_msi_token_eq. unfold result_of at 1 2. cbn [fst].
  destruct (early_stages_ok w s) eqn:Hok.
  - destruct (main_coordinator w s Hok) as (pre0 & s1 & Hpre & _ & _ & _ & Htr).
    rewrite Htr. unfold token_calls, resolution_calls, emission_calls.
    rewrite marker_query_skip, terminal_state_skip, marker_writes_skip,
      (calls_skip is_token), (calls_skip is_resolution), (calls_skip is_emission)
      by exact Hpre.
    unfold metering_run. rewrite Hmissing.
    destruct (query_raises w s1 _) as [e|]; [|discriminate].
    destruct (is_ResourceNotFoundError e) eqn:He;
      [|intros Hq; cbn in Hq; injection Hq as _ ->; discriminate He].
    intros _.
    destruct (decode (http w token_request) _) as [e1|token];
      repeat split; intros; first [reflexivity|discriminate].
  - destruct (main_not_entered w s Hok) as [Hnone _].
    unfold marker_query. rewrite Hnone. discriminate.
Qed.

Lemma missing_config_stops_after_token_witness :
  token_calls (trace_of (main without_plan_id empty_store))
  = [EvRequest token_request (http without_plan_id token_request)] /\
  resolution_calls (trace_of (main without_plan_id empty_store)) = [] /\
  emission_calls (trace_of (main without_plan_id empty_store)) = [] /\
  marker_writes (trace_of (main without_plan_id empty_store)) = [] /\
  terminal_state (trace_of (main without_plan_id empty_store))
  = Some SkippedMissingConfig.
Proof.
  assert (metering_config_missing without_plan_id = true) as Hmissing
    by (vm_compute; reflexivity).
  assert (marker_query (trace_of (main without_plan_id empty_store))
          = Some (marker_of (storage_client without_plan_id)
                    (storage_container without_plan_id) (sample_clock 1),
                  Some ResourceNotFoundError)) as Hquery
    by (vm_compute; reflexivity).
  destruct (missing_config_stops_after_token without_plan_id empty_store _
              Hmissing Hquery)
    as (Htok & Hres & Hemit & Hmark & Hskip & _).
  split; [exact Htok|]. split; [exact Hres|]. split; [exact Hemit|].
  split; [exact Hmark|].
  apply (Hskip (JStr "tok")). vm_compute; reflexivity.
Defined.

(** C1 as stated fails: with [PLAN_ID] absent and the marker absent, the
    run ends in [SkippedMissingConfig] but has called the token endpoint. *)
Lemma missing_config_still_fetches_token :
  environ without_plan_id !! "PLAN_ID" = None /\
  marker_query (trace_of (main without_plan_id empty_store))
  = Some (marker_of (storage_client without_plan_id)
            (storage_container without_plan_id) (sample_clock 1),
          Some ResourceNotFoundError) /\
  ~ (terminal_state (trace_of (main without_plan_id empty_store))
     = Some SkippedMissingConfig /\
     downstream_calls (trace_of (main without_plan_id empty_store)) = []).
Proof.
  split; [vm_compute; reflexivity|]. split; [vm_compute; reflexivity|].
  intros [_ H]. vm_compute in H. discriminate H.
Qed.

(** ** Failed emission *)

Lemma falsy_present (x : string) : x <> EmptyString -> falsy (Some x) = false.
Proof. intros H. unfold falsy. destruct (decide (x = EmptyString)); [contradiction|reflexivity]. Qed.




(** ** Runs that reach the marker write *)

(** A run that attempts the marker write: the check read the clock one
    read after the start of the run, the write three reads after it. *)
Lemma run_reaching_write w s :
  marker_writes (trace_of (main w s)) <> [] ->
  let c := storage_client w in
  let cn := storage_container w in
  let b_check := marker_of c cn (clock w (1 + ticks s)) in
  let b_write := marker_of c cn (clock w (3 + ticks s)) in
  exists s1,
    keeps_blobs s s1 /\
    query_raises w s1 b_check = Some ResourceNotFoundError /\
    marker_query (trace_of (main w s)) = Some (b_check, Some ResourceNotFoundError) /\
    ((terminal_state (trace_of (main w s)) = Some Billed /\
      marker_writes (trace_of (main w s)) = [EvUploadBlob b_write [] None] /\
      blobs (state_of (main w s)) = <[b_write := []]> (blobs s1)) \/
     (exists e,
        terminal_state (trace_of (main w s)) = Some FailedMarkerWrite /\
        marker_writes (trace_of (main w s)) = [EvUploadBlob b_write [] (Some e)] /\
        blobs (state_of (main w s)) = blobs s1)).
Proof.
  cbv zeta. intros Hwrite.
  destruct (early_stages_ok w s) eqn:Hok.
  - destruct (main_coordinator w s Hok)
      as (pre0 & s1 & Hpre & Hticks & Hkeep & Hst & Htr).
    exists s1. rewrite Hst. rewrite Htr in Hwrite |- *.
    rewrite marker_writes_skip in Hwrite by exact Hpre.
    rewrite marker_query_skip, terminal_state_skip, marker_writes_skip
      by exact Hpre.
    change (1 + ticks s) with (S (ticks s)).
    change (3 + ticks s) with (S (S (S (ticks s)))).
    rewrite <- Hticks.
    split; [exact Hkeep|].
    unfold metering_run in *.
    destruct (query_raises w s1 _) as [e|]; [|exfalso; apply Hwrite; reflexivity].
    destruct (is_ResourceNotFoundError e) eqn:He;
      [|exfalso; apply Hwrite; reflexivity].
    apply is_ResourceNotFoundError_true in He. subst e.
    destruct (decode (http w token_request) _) as [e1|token];
      [exfalso; apply Hwrite; reflexivity|].
    destruct (falsy _ || falsy _ || falsy _);
      [exfalso; apply Hwrite; reflexivity|].
    destruct (decode (http w (resolution_request _ _ _)) _) as [e2|resource_id];
      [exfalso; apply Hwrite; reflexivity|].
    destruct (decode (http w (emission_request _ _ _ _)) _) as [e3|ack];
      [exfalso; apply Hwrite; reflexivity|].
    destruct (upload_blob_fault w _) as [e4|].
    + split; [reflexivity|]. split; [reflexivity|]. right. exists e4.
      repeat split.
    + split; [reflexivity|]. split; [reflexivity|]. left. repeat split.
  - destruct (main_not_entered w s Hok) as [Hnone _].
    exfalso. apply Hwrite. unfold marker_writes. rewrite Hnone. reflexivity.
Qed.

Lemma billed_run_writes w s :
  terminal_state (trace_of (main w s)) = Some Billed ->
  marker_writes (trace_of (main w s)) <> [].
Proof.
  destruct (early_stages_ok w s) eqn:Hok.
  - destruct (main_coordinator w s Hok) as (pre0 & s1 & Hpre & _ & _ & _ & Htr).
    rewrite Htr, terminal_state_skip, marker_writes_skip by exact Hpre.
    metering_paths; rewrite trace_of_mk; intros H; lazy in H;
      try discriminate H.
    discriminate.
  - destruct (main_not_entered w s Hok) as [Hnone _].
    unfold terminal_state. rewrite Hnone. discriminate.
Qed.

Lemma main_keeps_blobs w s : keeps_blobs s (state_of (main w s)).
Proof.
  destruct (early_stages_ok w s) eqn:Hok.
  - destruct (main_shape w s Hok) as (pre & s1 & _ & _ & Hkeep & Hmain).
    rewrite Hmain, state_of_mk.
    apply keeps_blobs_trans with s1; [exact Hkeep|apply metering_keeps].
  - destruct (main_early_failure w s Hok) as (r & tr & Hmain & _).
    rewrite Hmain, state_of_mk. intros b H. exact H.
Qed.

Lemma run_all_keeps_blobs later s : keeps_blobs s (run_all later s).
Proof.
  revert s. induction later as [|w later IH]; intros s; cbn.
  - apply keeps_blobs_refl.
  - apply keeps_blobs_trans with (state_of (main w s));
      [apply main_keeps_blobs|apply IH].
Qed.

(** ** The marker after a billed run *)

(** C5: a run that ends in [Billed] has written the marker object
    [billing/dailyRun_<D>.marker] of the day D that the write read from the
    clock; after any number of later runs, every check made with the same
    storage configuration on day D, and answered by the storage service
    from its contents, addresses that same object and returns [True]. *)
Theorem billed_marker_stays_visible w s :
  terminal_state (trace_of (main w s)) = Some Billed ->
  let c := storage_client w in
  let cn := storage_container w in
  let D := date_of (clock w (3 + ticks s)) in
  marker_writes (trace_of (main w s)) = [EvUploadBlob (day_marker c cn D) [] None] /\
  forall (later : list world) (w' : world),
    let s' := run_all later (state_of (main w s)) in
    date_of (clock w' (ticks s')) = D ->
    get_blob_properties_fault w' (day_marker c cn D) = None ->
    has_billed_today w' c cn s'
    = (inr true, tick s', [EvGetBlobProperties (day_marker c cn D) None]).
Proof.
  intros Hbilled. cbv zeta.
  destruct (run_reaching_write w s (billed_run_writes w s Hbilled))
    as (s1 & _ & _ & _ & [(_ & Hwrites & Hblobs)|(e & Hfailed & _)]);
    [|congruence].
  rewrite <- marker_of_day. split; [exact Hwrites|].
  intros later w' Hday Hfault.
  rewrite has_billed_today_eq, marker_of_day, Hday, <- marker_of_day.
  unfold query_raises. rewrite Hfault.
  assert (is_Some (blobs (run_all later (state_of (main w s)))
                     !! marker_of (storage_client w) (storage_container w)
                          (clock w (3 + ticks s)))) as [data Hdata].
  { apply run_all_keeps_blobs. rewrite Hblobs, lookup_insert_eq. eauto. }
  rewrite Hdata. reflexivity.
Qed.

Lemma billed_marker_stays_visible_witness :
  has_billed_today failing_emission (storage_client sample_world)
    (storage_container sample_world)
    (run_all [failing_uploads; failing_token]
       (state_of (main sample_world empty_store)))
  = (inr true,
     tick (run_all [failing_uploads; failing_token]
             (state_of (main sample_world empty_store))),
     [EvGetBlobProperties
        (day_marker (storage_client sample_world) (storage_container sample_world)
           (2026, 11, 4)%Z) None]).
Proof.
  assert (terminal_state (trace_of (main sample_world empty_store)) = Some Billed)
    as Hbilled by (vm_compute; reflexivity).
  apply (proj2 (billed_marker_stays_visible sample_world empty_store Hbilled)
           [failing_uploads; failing_token] failing_emission).
  - reflexivity.
  - reflexivity.
Defined.

(** ** The billing day of the check and of the write *)

(** C9: [has_billed_today] and [mark_billed_today] each read the clock at
    their own call and build the marker name from that reading. In a run
    that reaches the marker write, the check addresses the marker of the day
    read one clock read after the start of the run and the write the marker
    of the day read three reads after it: the same object when the two days
    agree, and two different objects when the write falls on the next day,
    in which case a billed run leaves the marker of the day that was checked
    absent and the marker of the next day present. *)
Theorem billing_day_read_at_each_call w s :
  let c := storage_client w in
  let cn := storage_container w in
  let d_check := date_of (clock w (1 + ticks s)) in
  let d_write := date_of (clock w (3 + ticks s)) in
  (forall c' cn' s',
     trace_of (has_billed_today w c' cn' s')
     = [EvGetBlobProperties (day_marker c' cn' (date_of (clock w (ticks s'))))
          (query_raises w s' (day_marker c' cn' (date_of (clock w (ticks s')))))]) /\
  (forall c' cn' s',
     exists raised,
       trace_of (mark_billed_today w c' cn' s')
       = [EvUploadBlob (day_marker c' cn' (date_of (clock w (ticks s')))) [] raised]) /\
  (marker_writes (trace_of (main w s)) <> [] ->
   marker_query (trace_of (main w s))
   = Some (day_marker c cn d_check, Some ResourceNotFoundError) /\
   (exists raised,
      marker_writes (trace_of (main w s))
      = [EvUploadBlob (day_marker c cn d_write) [] raised]) /\
   (d_write = d_check ->
    exists b raised,
      marker_query (trace_of (main w s)) = Some (b, Some ResourceNotFoundError) /\
      marker_writes (trace_of (main w s)) = [EvUploadBlob b [] raised]) /\
   (valid_date d_check -> d_write = next_day d_check ->
    day_marker c cn d_write <> day_marker c cn d_check /\
    (terminal_state (trace_of (main w s)) = Some Billed ->
     get_blob_properties_fault w (day_marker c cn d_check) = None ->
     blobs (state_of (main w s)) !! day_marker c cn d_write = Some [] /\
     blobs (state_of (main w s)) !! day_marker c cn d_check = None))).
Proof.
  cbv zeta. split; [|split].
  - intros c' cn' s'. rewrite has_billed_today_eq. reflexivity.
  - intros c' cn' s'. rewrite mark_billed_today_eq.
    destruct (upload_blob_fault w _); eexists; reflexivity.
  - intros Hwrite.
    destruct (run_reaching_write w s Hwrite) as (s1 & _ & Hraise & Hq & Hcases).
    rewrite !marker_of_day in Hraise, Hq, Hcases.
    assert (exists raised,
              marker_writes (trace_of (main w s))
              = [EvUploadBlob
                   (day_marker (storage_client w) (storage_container w)
                      (date_of (clock w (3 + ticks s)))) [] raised])
      as [raised Hwrites].
    { destruct Hcases as [(_ & H & _)|(e & _ & H & _)]; eauto. }
    split; [exact Hq|]. split; [eauto|]. split.
    + intros Hsame. rewrite Hsame in Hwrites. eauto.
    + intros Hvalid Hnext. rewrite Hnext in *.
      pose proof (next_day_marker_differs (storage_client w) (storage_container w)
                    _ Hvalid) as Hne.
      split; [exact Hne|].
      intros Hbilled Hfault.
      destruct Hcases as [(_ & _ & Hblobs)|(e & Hfailed & _)]; [|congruence].
      rewrite Hblobs. split; [apply lookup_insert_eq|].
      rewrite lookup_insert_ne by exact Hne.
      unfold query_raises in Hraise. rewrite Hfault in Hraise.
      destruct (blobs s1 !! _); [discriminate Hraise|reflexivity].
Qed.

Lemma billing_day_read_at_each_call_witness :
  day_marker (storage_client across_midnight) (storage_container across_midnight)
    (2026, 11, 5)%Z
  <> day_marker (storage_client across_midnight) (storage_container across_midnight)
       (2026, 11, 4)%Z /\
  blobs (state_of (main across_midnight empty_store))
    !! day_marker (storage_client across_midnight)
         (storage_container across_midnight) (2026, 11, 5)%Z
  = Some [] /\
  blobs (state_of (main across_midnight empty_store))
    !! day_marker (storage_client across_midnight)
         (storage_container across_midnight) (2026, 11, 4)%Z
  = None.
Proof.
  assert (marker_writes (trace_of (main across_midnight empty_store)) <> [])
    as Hwrite by (vm_compute; discriminate).
  destruct (billing_day_read_at_each_call across_midnight empty_store)
    as (_ & _ & Hrun).
  destruct (Hrun Hwrite) as (_ & _ & _ & Hnext).
  assert (valid_date (2026, 11, 4)%Z) as Hvalid by (unfold valid_date; lia).
  destruct (Hnext Hvalid eq_refl) as [Hne Hstore].
  split; [exact Hne|].
  apply Hstore; vm_compute; reflexivity.
Defined.


(** * Further properties of the program *)

(** ** The three requests *)

Lemma decode_field_inr res key v :
  decode res (Some key) = inr v <->
  exists status_code members,
    res = Response status_code (Some (JObj members)) /\
    ~ (400 <= status_code < 600)%Z /\
    dict_get members key = Some v.
Proof.
  unfold decode, py_getitem. split.
  - destruct res as [e|status_code body]; [discriminate|].
    destruct (decide _) as [|Hok]; [discriminate|].
    destruct body as [j|]; [|discriminate].
    destruct j; try discriminate.
    destruct (dict_get members key) as [x|] eqn:Hget; [|discriminate].
    intros H. injection H as ->. eauto.
  - intros (status_code & members & -> & Hok & Hget).
    destruct (decide _); [contradiction|]. rewrite Hget. reflexivity.
Qed.

(** X1: [get_msi_token] sends one GET request to the token endpoint, with
    the header [Metadata: true] and a timeout of 5, and leaves the state as
    it was. It returns [v] exactly when the response has a status outside
    400..599 and a body that is a JSON object whose [access_token] member
    is [v]. *)
Theorem get_msi_token_success_iff w s v :
  (result_of (get_msi_token w s) = inr v <->
   exists status_code members,
     http w (mkRequest GET TokenEndpoint [("Metadata", HLit "true")] None 5)
     = Response status_code (Some (JObj members)) /\
     ~ (400 <= status_code < 600)%Z /\
     dict_get members "access_token" = Some v) /\
  state_of (get_msi_token w s) = s /\
  trace_of (get_msi_token w s)
  = [EvRequest (mkRequest GET TokenEndpoint [("Metadata", HLit "true")] None 5)
       (http w (mkRequest GET TokenEndpoint [("Metadata", HLit "true")] None 5))].
Proof.
  rewrite get_msi_token_eq. fold token_request.
  split; [apply decode_field_inr|]. split; reflexivity.
Qed.

Lemma get_msi_token_success_iff_witness :
  result_of (get_msi_token sample_world empty_store) = inr (JStr "tok").
Proof.
  apply (proj1 (get_msi_token_success_iff sample_world empty_store (JStr "tok"))).
  exists 200%Z, [("access_token", JStr "tok")].
  split; [reflexivity|]. split; [lia|reflexivity].
Defined.

(** X2: the ways [get_msi_token] fails. A failure of the transport is
    raised as it is; a status in 400..599 raises [HTTPError] whatever the
    body; otherwise a body that is not JSON raises [JSONDecodeError], a JSON
    value that is not an object raises [TypeError], and an object without
    [access_token] raises [KeyError]. *)
Theorem get_msi_token_errors w s :
  (forall e,
     http w token_request = RequestFailed e ->
     result_of (get_msi_token w s) = inl e) /\
  (forall status_code body,
     http w token_request = Response status_code body ->
     (400 <= status_code < 600)%Z ->
     result_of (get_msi_token w s) = inl (HTTPError status_code)) /\
  (forall status_code,
     http w token_request = Response status_code None ->
     ~ (400 <= status_code < 600)%Z ->
     result_of (get_msi_token w s) = inl JSONDecodeError) /\
  (forall status_code j,
     http w token_request = Response status_code (Some j) ->
     ~ (400 <= status_code < 600)%Z ->
     (forall members, j <> JObj members) ->
     result_of (get_msi_token w s) = inl TypeError) /\
  (forall status_code members,
     http w token_request = Response status_code (Some (JObj members)) ->
     ~ (400 <= status_code < 600)%Z ->
     dict_get members "access_token" = None ->
     result_of (get_msi_token w s) = inl (KeyError "access_token")).
Proof.
  rewrite get_msi_token_eq. unfold result_of, decode, py_getitem. cbn [fst].
  repeat split.
  - intros e ->. reflexivity.
  - intros status_code body -> H. destruct (decide _); [reflexivity|contradiction].
  - intros status_code -> H. destruct (decide _); [contradiction|reflexivity].
  - intros status_code j -> H Hj. destruct (decide _); [contradiction|].
    destruct j; try reflexivity. exfalso. exact (Hj members eq_refl).
  - intros status_code members -> H Hget.
    destruct (decide _); [contradiction|]. rewrite Hget. reflexivity.
Qed.

Lemma get_msi_token_errors_witness :
  result_of (get_msi_token failing_token empty_store) = inl (HTTPError 500).
Proof.
  destruct (get_msi_token_errors failing_token empty_store) as (_ & Hstatus & _).
  apply (Hstatus 500%Z None); [reflexivity|lia].
Defined.

(** X3: [get_managed_app_resource_id] sends one GET request for the
    resource group, authorised with the token it is given, and leaves the
    state as it was. It returns the [managedBy] member of the response; a
    resource group whose description has no [managedBy] member makes it
    raise [KeyError]. *)
Theorem get_managed_app_resource_id_outcome w subscription_id rg_name token s :
  (forall v,
     result_of (get_managed_app_resource_id w subscription_id rg_name token s) = inr v <->
     exists status_code members,
       http w (mkRequest GET (ResolutionEndpoint subscription_id rg_name)
                 [("Authorization", HBearer token)] None 10)
       = Response status_code (Some (JObj members)) /\
       ~ (400 <= status_code < 600)%Z /\
       dict_get members "managedBy" = Some v) /\
  (forall status_code members,
     http w (mkRequest GET (ResolutionEndpoint subscription_id rg_name)
               [("Authorization", HBearer token)] None 10)
     = Response status_code (Some (JObj members)) ->
     ~ (400 <= status_code < 600)%Z ->
     dict_get members "managedBy" = None ->
     result_of (get_managed_app_resource_id w subscription_id rg_name token s)
     = inl (KeyError "managedBy")) /\
  state_of (get_managed_app_resource_id w subscription_id rg_name token s) = s /\
  trace_of (get_managed_app_resource_id w subscription_id rg_name token s)
  = [EvRequest (mkRequest GET (ResolutionEndpoint subscription_id rg_name)
                  [("Authorization", HBearer token)] None 10)
       (http w (mkRequest GET (ResolutionEndpoint subscription_id rg_name)
                  [("Authorization", HBearer token)] None 10))].
Proof.
  rewrite get_managed_app_resource_id_eq.
  fold (resolution_request subscription_id rg_name token).
  split; [intros v; apply decode_field_inr|].
  split; [|split; reflexivity].
  intros status_code members Hresp Hok Hget.
  unfold result_of, decode, py_getitem. cbn [fst]. rewrite Hresp.
  destruct (decide _); [contradiction|]. rewrite Hget. reflexivity.
Qed.

Lemma get_managed_app_resource_id_outcome_witness :
  result_of (get_managed_app_resource_id unmanaged_group "sub-1" "rg-1"
               (JStr "tok") empty_store)
  = inl (KeyError "managedBy").
Proof.
  destruct (get_managed_app_resource_id_outcome unmanaged_group "sub-1" "rg-1"
              (JStr "tok") empty_store) as (_ & Hmissing & _).
  apply (Hmissing 200%Z [("name", JStr "rg-1")]); [reflexivity|lia|reflexivity].
Defined.

(** X4: [emit_meter_event] reads the clock once, posts one usage event
    (dimension [dailyRun], quantity 1, the clock reading as
    [effectiveStartTime], the plan and resource it is given) and returns
    the decoded body of the response when the status is outside 400..599
    and the body is JSON. An answer whose body is not JSON raises
    [JSONDecodeError], also when its status is 200. *)
Theorem emit_meter_event_outcome w resource_id plan_id token s :
  let r :=
    mkRequest POST EmissionEndpoint
      [("Authorization", HBearer token); ("Content-Type", HLit "application/json")]
      (Some (JObj [("resourceId", resource_id); ("dimension", JStr "dailyRun");
                   ("quantity", JNum 1);
                   ("effectiveStartTime", JStr (strftime_iso (clock w (ticks s))));
                   ("planId", JStr plan_id)]))
      10 in
  (forall v,
     result_of (emit_meter_event w resource_id plan_id token s) = inr v <->
     exists status_code,
       http w r = Response status_code (Some v) /\ ~ (400 <= status_code < 600)%Z) /\
  (forall status_code,
     http w r = Response status_code None ->
     ~ (400 <= status_code < 600)%Z ->
     result_of (emit_meter_event w resource_id plan_id token s) = inl JSONDecodeError) /\
  state_of (emit_meter_event w resource_id plan_id token s) = tick s /\
  trace_of (emit_meter_event w resource_id plan_id token s) = [EvRequest r (http w r)].
Proof.
  cbv zeta. rewrite emit_meter_event_eq.
  fold (emission_request resource_id plan_id token (clock w (ticks s))).
  set (r := emission_request _ _ _ _).
  unfold result_of, decode. cbn [fst].
  split; [|split; [|split; reflexivity]].
  - intros v. split.
    + destruct (http w r) as [e|status_code body]; [discriminate|].
      destruct (decide _) as [|Hok]; [discriminate|].
      destruct body as [j|]; [|discriminate].
      intros H. injection H as ->. eauto.
    + intros (status_code & -> & Hok). destruct (decide _); [contradiction|reflexivity].
  - intros status_code -> Hok. destruct (decide _); [contradiction|reflexivity].
Qed.

Lemma emit_meter_event_outcome_witness :
  result_of (emit_meter_event accepted_without_body (JStr "app-1") "plan-1"
               (JStr "tok") empty_store)
  = inl JSONDecodeError.
Proof.
  destruct (emit_meter_event_outcome accepted_without_body (JStr "app-1") "plan-1"
              (JStr "tok") empty_store) as (_ & Hbody & _).
  apply (Hbody 200%Z); [reflexivity|lia].
Defined.

(** ** Outcomes of the Coordinator *)

(** A run whose marker query was answered "not found". *)
Lemma not_found_run w s b :
  marker_query (trace_of (main w s)) = Some (b, Some ResourceNotFoundError) ->
  exists pre s1,
    forallb artifact_event pre = true /\
    ticks s1 = S (ticks s) /\
    keeps_blobs s s1 /\
    b = marker_of (storage_client w) (storage_container w) (clock w (ticks s1)) /\
    query_raises w s1 b = Some ResourceNotFoundError /\
    state_of (main w s)
    = state_of (metering_run w (storage_client w) (storage_container w) s1) /\
    trace_of (main w s)
    = (pre ++ trace_of (metering_run w (storage_client w) (storage_container w) s1)
         ++ [closing_log])%list.
Proof.
  intros Hq.
  destruct (early_stages_ok w s) eqn:Hok.
  - destruct (main_coordinator w s Hok)
      as (pre & s1 & Hpre & Hticks & Hkeep & Hst & Htr).
    exists pre, s1. rewrite Htr in Hq.
    rewrite marker_query_skip in Hq by exact Hpre.
    assert (Some (marker_of (storage_client w) (storage_container w)
                    (clock w (ticks s1)),
                  query_raises w s1
                    (marker_of (storage_client w) (storage_container w)
                       (clock w (ticks s1))))
            = Some (b, Some ResourceNotFoundError)) as Heq.
    { rewrite <- Hq.
      destruct (metering_trace_head w (storage_client w) (storage_container w) s1)
        as [rest Hhead].
      rewrite metering_unfold in Hhead. rewrite Hhead. reflexivity. }
    injection Heq as Hb Hraise. subst b.
    repeat split; assumption.
  - destruct (main_not_entered w s Hok) as [Hnone _].
    unfold marker_query in Hq. rewrite Hnone in Hq. discriminate Hq.
Qed.

(** Rewrites the observers of a run's trace to the Coordinator's part. *)
Ltac to_coordinator Hpre :=
  unfold downstream_calls, token_calls, resolution_calls, emission_calls;
  rewrite ?terminal_state_skip, ?marker_writes_skip, ?marker_query_skip by exact Hpre;
  rewrite ?(calls_skip is_token), ?(calls_skip is_resolution),
    ?(calls_skip is_emission), ?(calls_skip (fun _ => true)) by exact Hpre.

Lemma absent_after (w : world) (s1 : state) b :
  query_raises w s1 b = Some ResourceNotFoundError ->
  get_blob_properties_fault w b = None ->
  blobs s1 !! b = None.
Proof.
  unfold query_raises. intros H Hfault. rewrite Hfault in H.
  destruct (blobs s1 !! b); [discriminate H|reflexivity].
Qed.

(** X5: token failure. With the marker absent, a failing token request
    ends the run in [FailedAuth]: the token request is the only downstream
    call, the failure is logged, no marker write is attempted and the
    marker object stays absent. *)
Theorem failed_token_stops_run w s b e :
  marker_query (trace_of (main w s)) = Some (b, Some ResourceNotFoundError) ->
  result_of (get_msi_token w s) = inl e ->
  terminal_state (trace_of (main w s)) = Some FailedAuth /\
  downstream_calls (trace_of (main w s))
  = [EvRequest token_request (http w token_request)] /\
  In (failure_log e) (trace_of (main w s)) /\
  marker_writes (trace_of (main w s)) = [] /\
  (get_blob_properties_fault w b = None ->
   blobs (state_of (main w s)) !! b = None).
Proof.
  intros Hq Htoken.
  rewrite get_msi_token_eq in Htoken. unfold result_of in Htoken. cbn [fst] in Htoken.
  destruct (not_found_run w s b Hq)
    as (pre & s1 & Hpre & _ & _ & Hb & Hraise & Hst & Htr).
  subst b. rewrite Hst, Htr. to_coordinator Hpre.
  unfold metering_run. rewrite Hraise. cbn [is_ResourceNotFoundError].
  rewrite Htoken, !trace_of_mk, state_of_mk.
  split; [reflexivity|]. split; [reflexivity|]. split; [|split; [reflexivity|]].
  - apply in_or_app. right. cbn. auto.
  - intros Hfault. exact (absent_after w s1 _ Hraise Hfault).
Qed.

Lemma failed_token_stops_run_witness :
  terminal_state (trace_of (main failing_token empty_store)) = Some FailedAuth /\
  downstream_calls (trace_of (main failing_token empty_store))
  = [EvRequest token_request (http failing_token token_request)] /\
  In (failure_log (HTTPError 500)) (trace_of (main failing_token empty_store)) /\
  marker_writes (trace_of (main failing_token empty_store)) = [] /\
  (get_blob_properties_fault failing_token
     (marker_of (storage_client failing_token) (storage_container failing_token)
        (sample_clock 1)) = None ->
   blobs (state_of (main failing_token empty_store))
     !! marker_of (storage_client failing_token) (storage_container failing_token)
          (sample_clock 1) = None).
Proof.
  apply (failed_token_stops_run failing_token empty_store _ (HTTPError 500)).
  - vm_compute; reflexivity.
  - vm_compute; reflexivity.
Defined.

(** Unfolds the Coordinator of a run whose marker query was answered "not
    found", whose token was obtained and whose configuration is present. *)
Ltac past_config Hraise Htoken Hsid Hrg Hplan :=
  unfold metering_run;
  rewrite Hraise; cbn [is_ResourceNotFoundError];
  rewrite Htoken, Hsid, Hrg, Hplan;
  rewrite !falsy_present by assumption;
  unfold str_of; cbn [from_option id orb].

(** X6: resolution failure. With the marker absent, the configuration
    present and the token obtained, a failing resolution request ends the
    run in [FailedResolution]: the downstream calls are the token request
    and the resolution request, in that order; no usage event is posted and
    no marker write is attempted. *)
Theorem failed_resolution_stops_run w s b subscription_id rg_name plan_id token e :
  marker_query (trace_of (main w s)) = Some (b, Some ResourceNotFoundError) ->
  environ w !! "SUBSCRIPTION_ID" = Some subscription_id -> subscription_id <> EmptyString ->
  environ w !! "RESOURCE_GROUP_NAME" = Some rg_name -> rg_name <> EmptyString ->
  environ w !! "PLAN_ID" = Some plan_id -> plan_id <> EmptyString ->
  result_of (get_msi_token w s) = inr token ->
  result_of (get_managed_app_resource_id w subscription_id rg_name token s) = inl e ->
  terminal_state (trace_of (main w s)) = Some FailedResolution /\
  downstream_calls (trace_of (main w s))
  = [EvRequest token_request (http w token_request);
     EvRequest (resolution_request subscription_id rg_name token)
       (http w (resolution_request subscription_id rg_name token))] /\
  In (failure_log e) (trace_of (main w s)) /\
  emission_calls (trace_of (main w s)) = [] /\
  marker_writes (trace_of (main w s)) = [].
Proof.
  intros Hq Hsid Hsid' Hrg Hrg' Hplan Hplan' Htoken Hresolve.
  rewrite get_msi_token_eq in Htoken.
  rewrite get_managed_app_resource_id_eq in Hresolve.
  unfold result_of in Htoken, Hresolve. cbn [fst] in Htoken, Hresolve.
  destruct (not_found_run w s b Hq)
    as (pre & s1 & Hpre & _ & _ & Hb & Hraise & Hst & Htr).
  subst b. rewrite Htr.
  split; [|split; [|split; [|split]]]; to_coordinator Hpre;
    try (apply in_or_app; right);
    past_config Hraise Htoken Hsid Hrg Hplan;
    rewrite Hresolve, !trace_of_mk; try reflexivity.
  cbn. auto 10.
Qed.

Lemma failed_resolution_stops_run_witness :
  terminal_state (trace_of (main unmanaged_group empty_store)) = Some FailedResolution /\
  downstream_calls (trace_of (main unmanaged_group empty_store))
  = [EvRequest token_request (http unmanaged_group token_request);
     EvRequest (resolution_request "sub-1" "rg-1" (JStr "tok"))
       (http unmanaged_group (resolution_request "sub-1" "rg-1" (JStr "tok")))] /\
  In (failure_log (KeyError "managedBy")) (trace_of (main unmanaged_group empty_store)) /\
  emission_calls (trace_of (main unmanaged_group empty_store)) = [] /\
  marker_writes (trace_of (main unmanaged_group empty_store)) = [].
Proof.
  apply (failed_resolution_stops_run unmanaged_group empty_store
           (marker_of (storage_client unmanaged_group)
              (storage_container unmanaged_group) (sample_clock 1))
           "sub-1" "rg-1" "plan-1" (JStr "tok") (KeyError "managedBy"));
    first [discriminate | vm_compute; reflexivity].
Defined.

(** X7: any failure of the emission. With the marker absent, the
    configuration present, the token obtained and the resource resolved,
    whatever [emit_meter_event] raises (a transport failure, an error
    status, or a body that is not JSON after the event was accepted) ends
    the run in [FailedEmission] with the failure logged; no marker write is
    attempted, so the marker object stays absent. *)
Theorem any_emission_failure_is_unmarked
    w s b subscription_id rg_name plan_id token resource_id e :
  marker_query (trace_of (main w s)) = Some (b, Some ResourceNotFoundError) ->
  environ w !! "SUBSCRIPTION_ID" = Some subscription_id -> subscription_id <> EmptyString ->
  environ w !! "RESOURCE_GROUP_NAME" = Some rg_name -> rg_name <> EmptyString ->
  environ w !! "PLAN_ID" = Some plan_id -> plan_id <> EmptyString ->
  result_of (get_msi_token w s) = inr token ->
  result_of (get_managed_app_resource_id w subscription_id rg_name token s)
  = inr resource_id ->
  (forall s', ticks s' = 2 + ticks s ->
     result_of (emit_meter_event w resource_id plan_id token s') = inl e) ->
  terminal_state (trace_of (main w s)) = Some FailedEmission /\
  In (failure_log e) (trace_of (main w s)) /\
  length (emission_calls (trace_of (main w s))) = 1 /\
  marker_writes (trace_of (main w s)) = [] /\
  (get_blob_properties_fault w b = None ->
   blobs (state_of (main w s)) !! b = None).
Proof.
  intros Hq Hsid Hsid' Hrg Hrg' Hplan Hplan' Htoken Hresolve Hemit.
  rewrite get_msi_token_eq in Htoken.
  rewrite get_managed_app_resource_id_eq in Hresolve.
  unfold result_of in Htoken, Hresolve. cbn [fst] in Htoken, Hresolve.
  destruct (not_found_run w s b Hq)
    as (pre & s1 & Hpre & Hticks & _ & Hb & Hraise & Hst & Htr).
  specialize (Hemit (tick s1)).
  rewrite emit_meter_event_eq in Hemit. unfold result_of in Hemit.
  cbn [fst tick ticks] in Hemit.
  assert (S (ticks s1) = 2 + ticks s) as Hreads by (rewrite Hticks; reflexivity).
  specialize (Hemit Hreads).
  subst b. rewrite Hst, Htr.
  split; [|split; [|split; [|split]]]; to_coordinator Hpre;
    try (apply in_or_app; right);
    try intros Hfault;
    past_config Hraise Htoken Hsid Hrg Hplan;
    rewrite Hresolve, Hemit, ?trace_of_mk, ?state_of_mk; try reflexivity.
  - cbn. auto 10.
  - exact (absent_after w s1 _ Hraise Hfault).
Qed.

Lemma any_emission_failure_is_unmarked_witness :
  terminal_state (trace_of (main accepted_without_body empty_store))
  = Some FailedEmission /\
  In (failure_log JSONDecodeError) (trace_of (main accepted_without_body empty_store)) /\
  length (emission_calls (trace_of (main accepted_without_body empty_store))) = 1 /\
  marker_writes (trace_of (main accepted_without_body empty_store)) = [] /\
  (get_blob_properties_fault accepted_without_body
     (marker_of (storage_client accepted_without_body)
        (storage_container accepted_without_body) (sample_clock 1)) = None ->
   blobs (state_of (main accepted_without_body empty_store))
     !! marker_of (storage_client accepted_without_body)
          (storage_container accepted_without_body) (sample_clock 1) = None).
Proof.
  apply (any_emission_failure_is_unmarked accepted_without_body empty_store
           (marker_of (storage_client accepted_without_body)
              (storage_container accepted_without_body) (sample_clock 1))
           "sub-1" "rg-1" "plan-1" (JStr "tok") (JStr "app-1") JSONDecodeError);
    first [discriminate | vm_compute; reflexivity].
Defined.

(** X8: the successful run. With the marker absent, the configuration
    present, the three requests successful and the marker write accepted,
    the run ends in [Billed]: it has made exactly the token request, the
    resolution request and the emission request, in that order, the
    emission carrying the resolved resource, the plan and the token; it has
    written the marker once, and the marker object then holds the empty
    payload. *)
Theorem successful_run_is_billed
    w s b subscription_id rg_name plan_id token resource_id ack :
  marker_query (trace_of (main w s)) = Some (b, Some ResourceNotFoundError) ->
  environ w !! "SUBSCRIPTION_ID" = Some subscription_id -> subscription_id <> EmptyString ->
  environ w !! "RESOURCE_GROUP_NAME" = Some rg_name -> rg_name <> EmptyString ->
  environ w !! "PLAN_ID" = Some plan_id -> plan_id <> EmptyString ->
  result_of (get_msi_token w s) = inr token ->
  result_of (get_managed_app_resource_id w subscription_id rg_name token s)
  = inr resource_id ->
  (forall s', ticks s' = 2 + ticks s ->
     result_of (emit_meter_event w resource_id plan_id token s') = inr ack) ->
  upload_blob_fault w
    (marker_of (storage_client w) (storage_container w) (clock w (3 + ticks s))) = None ->
  terminal_state (trace_of (main w s)) = Some Billed /\
  downstream_calls (trace_of (main w s))
  = [EvRequest token_request (http w token_request);
     EvRequest (resolution_request subscription_id rg_name token)
       (http w (resolution_request subscription_id rg_name token));
     EvRequest (emission_request resource_id plan_id token (clock w (2 + ticks s)))
       (http w (emission_request resource_id plan_id token (clock w (2 + ticks s))))] /\
  marker_writes (trace_of (main w s))
  = [EvUploadBlob
       (marker_of (storage_client w) (storage_container w) (clock w (3 + ticks s)))
       [] None] /\
  blobs (state_of (main w s))
    !! marker_of (storage_client w) (storage_container w) (clock w (3 + ticks s))
  = Some [].
Proof.
  intros Hq Hsid Hsid' Hrg Hrg' Hplan Hplan' Htoken Hresolve Hemit Hupload.
  rewrite get_msi_token_eq in Htoken.
  rewrite get_managed_app_resource_id_eq in Hresolve.
  unfold result_of in Htoken, Hresolve. cbn [fst] in Htoken, Hresolve.
  destruct (not_found_run w s b Hq)
    as (pre & s1 & Hpre & Hticks & _ & Hb & Hraise & Hst & Htr).
  specialize (Hemit (tick s1)).
  rewrite emit_meter_event_eq in Hemit. unfold result_of in Hemit.
  cbn [fst tick ticks] in Hemit.
  change (3 + ticks s) with (S (S (S (ticks s)))) in *.
  change (2 + ticks s) with (S (S (ticks s))) in *.
  rewrite <- Hticks in *. specialize (Hemit eq_refl).
  subst b. rewrite Hst, Htr.
  split; [|split; [|split]]; to_coordinator Hpre;
    past_config Hraise Htoken Hsid Hrg Hplan;
    rewrite Hresolve, Hemit, Hupload, ?trace_of_mk, ?state_of_mk; try reflexivity.
  apply lookup_insert_eq.
Qed.

Lemma successful_run_is_billed_witness :
  terminal_state (trace_of (main sample_world empty_store)) = Some Billed /\
  downstream_calls (trace_of (main sample_world empty_store))
  = [EvRequest token_request (http sample_world token_request);
     EvRequest (resolution_request "sub-1" "rg-1" (JStr "tok"))
       (http sample_world (resolution_request "sub-1" "rg-1" (JStr "tok")));
     EvRequest
       (emission_request (JStr "app-1") "plan-1" (JStr "tok") (clock sample_world 2))
       (http sample_world
          (emission_request (JStr "app-1") "plan-1" (JStr "tok")
             (clock sample_world 2)))] /\
  marker_writes (trace_of (main sample_world empty_store))
  = [EvUploadBlob
       (marker_of (storage_client sample_world) (storage_container sample_world)
          (clock sample_world 3))
       [] None] /\
  blobs (state_of (main sample_world empty_store))
    !! marker_of (storage_client sample_world) (storage_container sample_world)
         (clock sample_world 3)
  = Some [].
Proof.
  apply (successful_run_is_billed sample_world empty_store
           (marker_of (storage_client sample_world)
              (storage_container sample_world) (sample_clock 1))
           "sub-1" "rg-1" "plan-1" (JStr "tok") (JStr "app-1")
           (JObj [("status", JStr "Accepted")]));
    first [discriminate | vm_compute; reflexivity].
Defined.

(** X9: a failed marker write. When everything up to the emission
    succeeded and the marker write raises, the run ends in
    [FailedMarkerWrite]: the usage event has been posted, the failure is
    logged, and the blob store holds no marker for the day that was
    checked. *)
Theorem failed_marker_write_after_emission
    w s b subscription_id rg_name plan_id token resource_id ack e :
  marker_query (trace_of (main w s)) = Some (b, Some ResourceNotFoundError) ->
  environ w !! "SUBSCRIPTION_ID" = Some subscription_id -> subscription_id <> EmptyString ->
  environ w !! "RESOURCE_GROUP_NAME" = Some rg_name -> rg_name <> EmptyString ->
  environ w !! "PLAN_ID" = Some plan_id -> plan_id <> EmptyString ->
  result_of (get_msi_token w s) = inr token ->
  result_of (get_managed_app_resource_id w subscription_id rg_name token s)
  = inr resource_id ->
  (forall s', ticks s' = 2 + ticks s ->
     result_of (emit_meter_event w resource_id plan_id token s') = inr ack) ->
  upload_blob_fault w
    (marker_of (storage_client w) (storage_container w) (clock w (3 + ticks s)))
  = Some e ->
  terminal_state (trace_of (main w s)) = Some FailedMarkerWrite /\
  emission_calls (trace_of (main w s))
  = [EvRequest (emission_request resource_id plan_id token (clock w (2 + ticks s)))
       (http w (emission_request resource_id plan_id token (clock w (2 + ticks s))))] /\
  In (failure_log e) (trace_of (main w s)) /\
  (get_blob_properties_fault w b = None ->
   blobs (state_of (main w s)) !! b = None).
Proof.
  intros Hq Hsid Hsid' Hrg Hrg' Hplan Hplan' Htoken Hresolve Hemit Hupload.
  rewrite get_msi_token_eq in Htoken.
  rewrite get_managed_app_resource_id_eq in Hresolve.
  unfold result_of in Htoken, Hresolve. cbn [fst] in Htoken, Hresolve.
  destruct (not_found_run w s b Hq)
    as (pre & s1 & Hpre & Hticks & _ & Hb & Hraise & Hst & Htr).
  specialize (Hemit (tick s1)).
  rewrite emit_meter_event_eq in Hemit. unfold result_of in Hemit.
  cbn [fst tick ticks] in Hemit.
  change (3 + ticks s) with (S (S (S (ticks s)))) in *.
  change (2 + ticks s) with (S (S (ticks s))) in *.
  rewrite <- Hticks in *. specialize (Hemit eq_refl).
  subst b. rewrite Hst, Htr.
  split; [|split; [|split]]; to_coordinator Hpre;
    try (apply in_or_app; right);
    try intros Hfault;
    past_config Hraise Htoken Hsid Hrg Hplan;
    rewrite Hresolve, Hemit, Hupload, ?trace_of_mk, ?state_of_mk; try reflexivity.
  - cbn. auto 10.
  - exact (absent_after w s1 _ Hraise Hfault).
Qed.

Lemma failed_marker_write_after_emission_witness :
  terminal_state (trace_of (main refused_marker_write empty_store))
  = Some FailedMarkerWrite /\
  emission_calls (trace_of (main refused_marker_write empty_store))
  = [EvRequest
       (emission_request (JStr "app-1") "plan-1" (JStr "tok")
          (clock refused_marker_write 2))
       (http refused_marker_write
          (emission_request (JStr "app-1") "plan-1" (JStr "tok")
             (clock refused_marker_write 2)))] /\
  In (failure_log (HttpResponseError 503))
    (trace_of (main refused_marker_write empty_store)) /\
  (get_blob_properties_fault refused_marker_write
     (marker_of (storage_client refused_marker_write)
        (storage_container refused_marker_write) (sample_clock 1)) = None ->
   blobs (state_of (main refused_marker_write empty_store))
     !! marker_of (storage_client refused_marker_write)
          (storage_container refused_marker_write) (sample_clock 1) = None).
Proof.
  apply (failed_marker_write_after_emission refused_marker_write empty_store
           (marker_of (storage_client refused_marker_write)
              (storage_container refused_marker_write) (sample_clock 1))
           "sub-1" "rg-1" "plan-1" (JStr "tok") (JStr "app-1")
           (JObj [("status", JStr "Accepted")]) (HttpResponseError 503));
    first [discriminate | vm_compute; reflexivity].
Defined.

(** X10: a failed marker query blocks billing. When the storage call of
    the check raises anything but [ResourceNotFoundError], the run ends in
    [FailedMarkerQuery] with the failure logged: no downstream call is made
    and no marker write is attempted. *)
Theorem marker_query_failure_blocks_billing w s b e :
  marker_query (trace_of (main w s)) = Some (b, Some e) ->
  e <> ResourceNotFoundError ->
  terminal_state (trace_of (main w s)) = Some FailedMarkerQuery /\
  downstream_calls (trace_of (main w s)) = [] /\
  marker_writes (trace_of (main w s)) = [] /\
  In (failure_log e) (trace_of (main w s)).
Proof.
  intros Hq He.
  assert (is_ResourceNotFoundError e = false) as Hne
    by (destruct e; try reflexivity; contradiction).
  destruct (early_stages_ok w s) eqn:Hok.
  - destruct (main_coordinator w s Hok) as (pre & s1 & Hpre & _ & _ & _ & Htr).
    rewrite Htr in Hq |- *. rewrite marker_query_skip in Hq by exact Hpre.
    assert (query_raises w s1
              (marker_of (storage_client w) (storage_container w)
                 (clock w (ticks s1))) = Some e) as Hraise.
    { destruct (metering_trace_head w (storage_client w) (storage_container w) s1)
        as [rest Hhead].
      rewrite metering_unfold in Hhead. rewrite Hhead in Hq.
      cbn in Hq. congruence. }
    split; [|split; [|split]]; to_coordinator Hpre;
      try (apply in_or_app; right);
      unfold metering_run; rewrite Hraise, Hne, trace_of_mk; try reflexivity.
    cbn. auto.
  - destruct (main_not_entered w s Hok) as [Hnone _].
    unfold marker_query in Hq. rewrite Hnone in Hq. discriminate Hq.
Qed.

Lemma marker_query_failure_blocks_billing_witness :
  terminal_state (trace_of (main storage_outage empty_store)) = Some FailedMarkerQuery /\
  downstream_calls (trace_of (main storage_outage empty_store)) = [] /\
  marker_writes (trace_of (main storage_outage empty_store)) = [] /\
  In (failure_log ServiceRequestError) (trace_of (main storage_outage empty_store)).
Proof.
  apply (marker_query_failure_blocks_billing storage_outage empty_store
           (marker_of (storage_client storage_outage)
              (storage_container storage_outage) (sample_clock 1))
           ServiceRequestError).
  - vm_compute; reflexivity.
  - discriminate.
Defined.

(** ** Blob names *)

Lemma append_cons a (s1 s2 : string) : String a s1 +:+ s2 = String a (s1 +:+ s2).
Proof. reflexivity. Qed.

Lemma stamp_not_marker t rest today :
  year_in_range t -> strftime_stamp t +:+ rest <> marker_blob_name today.
Proof.
  unfold year_in_range, strftime_stamp, strftime_date, marker_blob_name, pad4.
  intros Hy H.
  cbv beta iota fix delta [String.append] in H.
  injection H as H _. unfold digit in H.
  apply (f_equal nat_of_ascii) in H.
  rewrite nat_ascii_embedding in H by (Z.div_mod_to_equations; lia).
  cbn in H. Z.div_mod_to_equations. lia.
Qed.

(** X11: the blob names of a run. The three artifacts of a run have
    pairwise different names, and for a clock within the years of
    [datetime] none of them is the name of a marker object: the uploads of
    a run overwrite neither each other nor a billing marker. *)
Theorem artifact_names_are_distinct t :
  NoDup [json_file_name t; diagram_file_name_mld t; diagram_file_name_hld t] /\
  (year_in_range t ->
   forall today,
     json_file_name t <> marker_blob_name today /\
     diagram_file_name_mld t <> marker_blob_name today /\
     diagram_file_name_hld t <> marker_blob_name today).
Proof.
  split.
  - unfold json_file_name, diagram_file_name_mld, diagram_file_name_hld.
    repeat constructor; rewrite ?list_elem_of_In; cbn; intros H;
      repeat destruct H as [H|H]; try contradiction;
      apply (inj (String.append (strftime_stamp t))) in H; discriminate H.
  - intros Hy today.
    unfold json_file_name, diagram_file_name_mld, diagram_file_name_hld.
    repeat split; apply stamp_not_marker; exact Hy.
Qed.

Lemma artifact_names_are_distinct_witness :
  json_file_name (sample_clock 0) <> marker_blob_name "2026-11-04" /\
  diagram_file_name_mld (sample_clock 0) <> marker_blob_name "2026-11-04" /\
  diagram_file_name_hld (sample_clock 0) <> marker_blob_name "2026-11-04".
Proof.
  apply (proj2 (artifact_names_are_distinct (sample_clock 0))).
  unfold year_in_range. cbn. lia.
Defined.

(** X12: one marker object per day. For clock readings within the range
    of [datetime], [has_billed_today] and [mark_billed_today] address the
    same marker object exactly when the readings fall on the same calendar
    day. *)
Theorem same_marker_iff_same_day c cn t1 t2 :
  valid_date (date_of t1) -> valid_date (date_of t2) ->
  (get_blob_client c cn (marker_blob_name (strftime_date t1))
   = get_blob_client c cn (marker_blob_name (strftime_date t2))
   <-> date_of t1 = date_of t2).
Proof.
  intros H1 H2. split.
  - intros H. apply (day_marker_inj c cn); [apply valid_date_printable..|];
      assumption.
  - intros H. rewrite (strftime_date_ext t1 t2 H). reflexivity.
Qed.

Lemma same_marker_iff_same_day_witness :
  get_blob_client (storage_client sample_world) (storage_container sample_world)
    (marker_blob_name (strftime_date (mkDatetime 2026 11 4 0 0 0)))
  = get_blob_client (storage_client sample_world) (storage_container sample_world)
      (marker_blob_name (strftime_date (mkDatetime 2026 11 4 23 59 59))).
Proof.
  apply (proj2 (same_marker_iff_same_day (storage_client sample_world)
                  (storage_container sample_world)
                  (mkDatetime 2026 11 4 0 0 0) (mkDatetime 2026 11 4 23 59 59)
                  ltac:(unfold valid_date; cbn; lia)
                  ltac:(unfold valid_date; cbn; lia))).
  reflexivity.
Defined.

(** ** What a run stores *)

(** X13: the effect of [upload_file] on the store. If the file can be read
    and the service accepts the upload, the blob of that name then holds
    the bytes of the file, replacing whatever it held; if either step
    raises, the store is left as it was. No other blob is changed, the
    clock is not read, and exactly one report is logged for the blob. *)
Theorem upload_file_effect w c cn blob_name file_path s :
  (forall data,
     read_file w file_path = inr data ->
     upload_blob_fault w (get_blob_client c cn blob_name) = None ->
     blobs (state_of (upload_file w c cn blob_name file_path s))
       !! get_blob_client c cn blob_name = Some data /\
     upload_reports (trace_of (upload_file w c cn blob_name file_path s))
     = [(blob_name, None)]) /\
  (forall e,
     read_file w file_path = inl e \/
     (exists data, read_file w file_path = inr data /\
                   upload_blob_fault w (get_blob_client c cn blob_name) = Some e) ->
     blobs (state_of (upload_file w c cn blob_name file_path s)) = blobs s /\
     upload_reports (trace_of (upload_file w c cn blob_name file_path s))
     = [(blob_name, Some e)]) /\
  (forall b,
     b <> get_blob_client c cn blob_name ->
     blobs (state_of (upload_file w c cn blob_name file_path s)) !! b = blobs s !! b) /\
  ticks (state_of (upload_file w c cn blob_name file_path s)) = ticks s.
Proof.
  rewrite upload_file_eq. repeat split.
  - rewrite H, H0, state_of_mk. apply lookup_insert_eq.
  - rewrite H, H0. reflexivity.
  - destruct H as [H|(data & H & H')]; rewrite H, ?H'; reflexivity.
  - destruct H as [H|(data & H & H')]; rewrite H, ?H'; reflexivity.
  - intros b Hb. destruct (read_file w file_path); [reflexivity|].
    destruct (upload_blob_fault w _); [reflexivity|].
    rewrite state_of_mk. cbn [blobs]. apply lookup_insert_ne. congruence.
  - destruct (read_file w file_path); [reflexivity|].
    destruct (upload_blob_fault w _); reflexivity.
Qed.

Lemma upload_file_effect_witness :
  blobs (state_of (upload_file sample_world (storage_client sample_world)
                     (storage_container sample_world) "a.json" "/tmp/a.json"
                     empty_store))
    !! get_blob_client (storage_client sample_world)
         (storage_container sample_world) "a.json" = Some [] /\
  upload_reports (trace_of (upload_file sample_world (storage_client sample_world)
                              (storage_container sample_world) "a.json" "/tmp/a.json"
                              empty_store))
  = [("a.json", None)].
Proof.
  destruct (upload_file_effect sample_world (storage_client sample_world)
              (storage_container sample_world) "a.json" "/tmp/a.json" empty_store)
    as (Hok & _).
  apply (Hok []); reflexivity.
Defined.

Lemma upload_file_frame w c cn blob_name file_path s b :
  b <> get_blob_client c cn blob_name ->
  blobs (state_of (upload_file w c cn blob_name file_path s)) !! b = blobs s !! b.
Proof.
  intros Hb. rewrite upload_file_eq.
  destruct (read_file w file_path); [reflexivity|].
  destruct (upload_blob_fault w _); [reflexivity|].
  rewrite state_of_mk. cbn [blobs]. apply lookup_insert_ne. congruence.
Qed.

Lemma after_uploads_frame w s b :
  ~ In b (artifact_refs w s) ->
  blobs (after_uploads w s) !! b = blobs s !! b.
Proof.
  unfold artifact_refs, after_uploads. cbn [In]. intros Hb.
  rewrite !upload_file_frame by (intros ->; apply Hb; auto).
  reflexivity.
Qed.

Lemma after_uploads_ticks w s : ticks (after_uploads w s) = S (ticks s).
Proof. unfold after_uploads. rewrite !upload_file_ticks. reflexivity. Qed.

(** A run whose early stages succeed, with the Coordinator's start state
    made explicit. *)
Lemma main_after_uploads w s :
  early_stages_ok w s = true ->
  exists pre,
    forallb artifact_event pre = true /\
    state_of (main w s)
    = state_of (metering_run w (storage_client w) (storage_container w)
                  (after_uploads w s)) /\
    trace_of (main w s)
    = (pre ++ trace_of (metering_run w (storage_client w) (storage_container w)
                          (after_uploads w s))
         ++ [closing_log])%list.
Proof.
  intros Hok. rewrite (main_early_success w s Hok). cbv zeta.
  rewrite publish_and_meter_eq. cbv zeta.
  rewrite state_of_mk, !trace_of_mk, metering_unfold.
  fold (after_uploads w s).
  set (u1 := upload_file w _ _ _ _ (tick s)).
  set (u2 := upload_file w _ _ _ _ (state_of u1)).
  set (u3 := upload_file w _ _ _ _ (state_of u2)).
  exists (startup_log w s ++ trace_of u1 ++ trace_of u2 ++ trace_of u3)%list.
  split; [|split].
  - rewrite !forallb_app. unfold u1, u2, u3.
    rewrite !upload_file_trace. reflexivity.
  - reflexivity.
  - rewrite <- !app_assoc. reflexivity.
Qed.

Lemma metering_run_frame w c cn s b :
  b <> marker_of c cn (clock w (2 + ticks s)) ->
  blobs (state_of (metering_run w c cn s)) !! b = blobs s !! b.
Proof.
  intros Hb. unfold metering_run.
  repeat (match goal with
          | |- context [match ?x with _ => _ end] => destruct x
          end; try reflexivity).
  rewrite state_of_mk. cbn [blobs]. apply lookup_insert_ne.
  intros Heq. apply Hb. symmetry. exact Heq.
Qed.

(** X14: what a run may change in the store. A run changes no blob other
    than its three artifact blobs and the marker object of the day read at
    the marker write, all in the configured account and container; blobs
    that were present stay present. *)
Theorem main_changes_only_its_blobs w s b :
  (blobs (state_of (main w s)) !! b <> blobs s !! b ->
   In b (artifact_refs w s) \/
   b = marker_of (storage_client w) (storage_container w) (clock w (3 + ticks s))) /\
  (blobs (state_of (main w s)) !! b <> blobs s !! b ->
   b.1 = (account_url (storage_client w), storage_container w)) /\
  (is_Some (blobs s !! b) -> is_Some (blobs (state_of (main w s)) !! b)).
Proof.
  assert (blobs (state_of (main w s)) !! b <> blobs s !! b ->
          In b (artifact_refs w s) \/
          b = marker_of (storage_client w) (storage_container w)
                (clock w (3 + ticks s))) as Hchange.
  { intros Hne.
    destruct (early_stages_ok w s) eqn:Hok.
    - destruct (main_after_uploads w s Hok) as (pre & _ & Hst & _).
      rewrite Hst in Hne.
      destruct (decide (b = marker_of (storage_client w) (storage_container w)
                            (clock w (3 + ticks s)))) as [|Hm]; [right; assumption|].
      left. destruct (In_dec (decide_rel (=)) b (artifact_refs w s)) as [|Hart];
        [assumption|].
      exfalso. apply Hne.
      rewrite metering_run_frame
        by (rewrite after_uploads_ticks; exact Hm).
      apply after_uploads_frame, Hart.
    - destruct (early_failure_only_logs w s Hok) as [_ Hblobs].
      rewrite Hblobs in Hne. contradiction. }
  split; [exact Hchange|]. split; [|apply main_keeps_blobs].
  intros Hne. destruct (Hchange Hne) as [Hin| ->]; [|reflexivity].
  unfold artifact_refs in Hin. cbn [In] in Hin.
  destruct Hin as [<-|[<-|[<-|[]]]]; reflexivity.
Qed.

Lemma main_changes_only_its_blobs_witness :
  blobs (state_of (main sample_world empty_store))
    !! ("https://other.blob.core.windows.net", "drawings",
        "billing/dailyRun_2026-11-04.marker")
  = blobs empty_store
      !! ("https://other.blob.core.windows.net", "drawings",
          "billing/dailyRun_2026-11-04.marker").
Proof.
  destruct (main_changes_only_its_blobs sample_world empty_store
              ("https://other.blob.core.windows.net", "drawings",
               "billing/dailyRun_2026-11-04.marker")) as (_ & Hwhere & _).
  destruct (decide (blobs (state_of (main sample_world empty_store))
                      !! ("https://other.blob.core.windows.net", "drawings",
                          "billing/dailyRun_2026-11-04.marker")
                    = blobs empty_store
                        !! ("https://other.blob.core.windows.net", "drawings",
                            "billing/dailyRun_2026-11-04.marker"))) as [H|H];
    [exact H|].
  apply Hwhere in H. vm_compute in H. discriminate H.
Defined.

Lemma artifact_names_ne t :
  json_file_name t <> diagram_file_name_mld t /\
  json_file_name t <> diagram_file_name_hld t /\
  diagram_file_name_mld t <> diagram_file_name_hld t.
Proof.
  unfold json_file_name, diagram_file_name_mld, diagram_file_name_hld.
  repeat split; intros H;
    apply (inj (String.append (strftime_stamp t))) in H; discriminate H.
Qed.

Lemma upload_file_stores w c cn blob_name file_path s data :
  read_file w file_path = inr data ->
  upload_blob_fault w (get_blob_client c cn blob_name) = None ->
  blobs (state_of (upload_file w c cn blob_name file_path s))
    !! get_blob_client c cn blob_name = Some data.
Proof.
  intros Hread Hup. rewrite upload_file_eq, Hread, Hup, state_of_mk.
  apply lookup_insert_eq.
Qed.

(** X15: the artifacts of a run. When the early stages succeed, the three
    files can be read back and the service accepts the three uploads, the
    store holds, after the run, each artifact blob with the bytes of its
    file: no later upload of the run and no marker write has replaced it
    (for a clock within the years of [datetime]). *)
Theorem artifacts_are_stored w s data_json data_mld data_hld :
  early_stages_ok w s = true ->
  year_in_range (clock w (ticks s)) ->
  read_file w (tmp_path (json_file_name (clock w (ticks s)))) = inr data_json ->
  read_file w (tmp_path (diagram_file_name_mld (clock w (ticks s)))) = inr data_mld ->
  read_file w (tmp_path (diagram_file_name_hld (clock w (ticks s)))) = inr data_hld ->
  (forall b, In b (artifact_refs w s) -> upload_blob_fault w b = None) ->
  blobs (state_of (main w s))
    !! get_blob_client (storage_client w) (storage_container w)
         (json_file_name (clock w (ticks s))) = Some data_json /\
  blobs (state_of (main w s))
    !! get_blob_client (storage_client w) (storage_container w)
         (diagram_file_name_mld (clock w (ticks s))) = Some data_mld /\
  blobs (state_of (main w s))
    !! get_blob_client (storage_client w) (storage_container w)
         (diagram_file_name_hld (clock w (ticks s))) = Some data_hld.
Proof.
  intros Hok Hyear Hjson Hmld Hhld Hup.
  destruct (main_after_uploads w s Hok) as (pre & _ & Hst & _).
  rewrite Hst.
  destruct (artifact_names_ne (clock w (ticks s))) as (Hjm & Hjh & Hmh).
  assert (forall name today,
            name = json_file_name (clock w (ticks s)) \/
            name = diagram_file_name_mld (clock w (ticks s)) \/
            name = diagram_file_name_hld (clock w (ticks s)) ->
            get_blob_client (storage_client w) (storage_container w) name
            <> marker_of (storage_client w) (storage_container w) today)
    as Hmarker.
  { intros name today Hname H. unfold marker_of, get_blob_client in H.
    injection H as H.
    destruct Hname as [-> | [-> | ->]];
      exact (stamp_not_marker _ _ _ Hyear H). }
  rewrite !metering_run_frame by (apply Hmarker; auto).
  unfold after_uploads. cbv zeta.
  assert (forall n1 n2 : string,
            n1 <> n2 ->
            get_blob_client (storage_client w) (storage_container w) n1
            <> get_blob_client (storage_client w) (storage_container w) n2)
    as Hne by (intros n1 n2 Hn H; injection H as H; contradiction).
  split; [|split].
  - rewrite !upload_file_frame by (apply Hne; assumption).
    apply upload_file_stores; [exact Hjson|].
    apply Hup. unfold artifact_refs. cbn. auto.
  - rewrite upload_file_frame by (apply Hne; assumption).
    apply upload_file_stores; [exact Hmld|].
    apply Hup. unfold artifact_refs. cbn. auto.
  - apply upload_file_stores; [exact Hhld|].
    apply Hup. unfold artifact_refs. cbn. auto.
Qed.

Lemma artifacts_are_stored_witness :
  blobs (state_of (main sample_world empty_store))
    !! get_blob_client (storage_client sample_world) (storage_container sample_world)
         (json_file_name (clock sample_world (ticks empty_store))) = Some [] /\
  blobs (state_of (main sample_world empty_store))
    !! get_blob_client (storage_client sample_world) (storage_container sample_world)
         (diagram_file_name_mld (clock sample_world (ticks empty_store))) = Some [] /\
  blobs (state_of (main sample_world empty_store))
    !! get_blob_client (storage_client sample_world) (storage_container sample_world)
         (diagram_file_name_hld (clock sample_world (ticks empty_store))) = Some [].
Proof.
  apply (artifacts_are_stored sample_world empty_store [] [] []).
  - vm_compute; reflexivity.
  - unfold year_in_range. cbn. lia.
  - reflexivity.
  - reflexivity.
  - reflexivity.
  - intros b _. reflexivity.
Defined.

(** ** The downstream calls of a run *)

(** X16: the downstream calls of a run form a prefix of one pipeline:
    nothing; or the token request; or the token request followed by the
    resolution request, authorised with the [access_token] just obtained;
    or these two followed by one emission request that carries the resolved
    [managedBy] value, the configured plan and the same token, stamped with
    the third clock reading of the run. No run posts more than one usage
    event. *)
Theorem downstream_calls_form_a_pipeline w s :
  (downstream_calls (trace_of (main w s)) = [] \/
   downstream_calls (trace_of (main w s))
   = [EvRequest token_request (http w token_request)] \/
   exists token,
     result_of (get_msi_token w s) = inr token /\
     metering_config_missing w = false /\
     (downstream_calls (trace_of (main w s))
      = [EvRequest token_request (http w token_request);
         EvRequest
           (resolution_request (str_of (environ w !! "SUBSCRIPTION_ID"))
              (str_of (environ w !! "RESOURCE_GROUP_NAME")) token)
           (http w
              (resolution_request (str_of (environ w !! "SUBSCRIPTION_ID"))
                 (str_of (environ w !! "RESOURCE_GROUP_NAME")) token))] \/
      exists resource_id,
        result_of
          (get_managed_app_resource_id w (str_of (environ w !! "SUBSCRIPTION_ID"))
             (str_of (environ w !! "RESOURCE_GROUP_NAME")) token s)
        = inr resource_id /\
        downstream_calls (trace_of (main w s))
        = [EvRequest token_request (http w token_request);
           EvRequest
             (resolution_request (str_of (environ w !! "SUBSCRIPTION_ID"))
                (str_of (environ w !! "RESOURCE_GROUP_NAME")) token)
             (http w
                (resolution_request (str_of (environ w !! "SUBSCRIPTION_ID"))
                   (str_of (environ w !! "RESOURCE_GROUP_NAME")) token));
           EvRequest
             (emission_request resource_id (str_of (environ w !! "PLAN_ID")) token
                (clock w (2 + ticks s)))
             (http w
                (emission_request resource_id (str_of (environ w !! "PLAN_ID")) token
                   (clock w (2 + ticks s))))])) /\
  length (emission_calls (trace_of (main w s))) <= 1.
Proof.
  destruct (early_stages_ok w s) eqn:Hok.
  - destruct (main_coordinator w s Hok) as (pre & s1 & Hpre & Hticks & _ & _ & Htr).
    rewrite Htr. to_coordinator Hpre.
    rewrite get_msi_token_eq. unfold result_of at 1. cbn [fst].
    change (2 + ticks s) with (S (S (ticks s))). rewrite <- Hticks.
    unfold metering_config_missing, metering_run.
    destruct (query_raises w s1 _) as [e|]; [|split; [left; reflexivity|cbn; lia]].
    destruct (is_ResourceNotFoundError e);
      [|split; [left; reflexivity|cbn; lia]].
    destruct (decode (http w token_request) _) as [e1|token];
      [split; [right; left; reflexivity|cbn; lia]|].
    destruct (falsy _ || falsy _ || falsy _);
      [split; [right; left; reflexivity|cbn; lia]|].
    destruct (decode (http w (resolution_request _ _ _)) _)
      as [e2|resource_id] eqn:Hresolve.
    { split; [|cbn; lia]. right; right. exists token.
      split; [reflexivity|]. split; [reflexivity|]. left. reflexivity. }
    assert (result_of
              (get_managed_app_resource_id w (str_of (environ w !! "SUBSCRIPTION_ID"))
                 (str_of (environ w !! "RESOURCE_GROUP_NAME")) token s)
            = inr resource_id) as Hres
      by (rewrite get_managed_app_resource_id_eq; exact Hresolve).
    destruct (decode (http w (emission_request _ _ _ _)) _) as [e3|ack];
      [|destruct (upload_blob_fault w _) as [e4|]];
      (split; [|cbn; lia]; right; right; exists token;
       split; [reflexivity|]; split; [reflexivity|]; right; exists resource_id;
       split; [exact Hres|reflexivity]).
  - destruct (main_not_entered w s Hok) as [_ Hcalls].
    unfold downstream_calls, emission_calls. rewrite !Hcalls.
    split; [left; reflexivity|cbn; lia].
Qed.

(** X17: the Coordinator and the store. Every pass through the metered
    billing logic ends in one of the terminal states; it changes the blob
    store only when it ends in [Billed], and then by exactly one write: the
    empty marker of the day read at its third clock reading. *)
Theorem coordinator_writes_only_when_billed w c cn s :
  (terminal_state (trace_of (metering w c cn s)) = Some Billed /\
   blobs (state_of (metering w c cn s))
   = <[marker_of c cn (clock w (2 + ticks s)) := []]> (blobs s)) \/
  (exists t,
     terminal_state (trace_of (metering w c cn s)) = Some t /\
     t <> Billed /\
     blobs (state_of (metering w c cn s)) = blobs s).
Proof.
  rewrite metering_unfold. unfold metering_run.
  repeat (match goal with
          | |- context [match ?x with _ => _ end] => destruct x
          end;
          try (right; eexists; split; [reflexivity|];
               split; [discriminate|reflexivity])).
  left. split; reflexivity.
Qed.

(** ** What a run lets through *)

Lemma publish_and_meter_returns w c cn jn jp mn mp hn hp s :
  result_of (publish_and_meter w c cn jn jp mn mp hn hp s) = inr tt.
Proof. rewrite publish_and_meter_eq. reflexivity. Qed.

(** X18: the exceptions a run lets through. [main] catches what the
    subscription listing, the topology collection, the JSON dump, the
    diagram generation, the uploads and the metered billing logic raise. It
    raises only what the two constructors called outside every [try] raise:
    [Config()] and [BlobServiceClient(...)]; when these return, [main]
    returns normally. *)
Theorem main_raises_only_from_constructors w s :
  (Config_init w = None ->
   BlobServiceClient_init w (str_of (environ w !! "DRAWING_STORAGE_URL")) = None ->
   result_of (main w s) = inr tt) /\
  (forall e,
     result_of (main w s) = inl e ->
     Config_init w = Some e \/
     BlobServiceClient_init w (str_of (environ w !! "DRAWING_STORAGE_URL")) = Some e).
Proof.
  unfold main, attempt, try_except, bind, utcnow,
    logging_info, logging_error, emit, lift_sum, lift_option, ret, raise.
  cbn.
  destruct (get_all_subscription_ids w) as [e0|ids]; cbn;
    [split; [reflexivity|discriminate]|].
  destruct (get_vnet_topology_for_selected_subscriptions w ids) as [e0|topology];
    cbn; [split; [reflexivity|discriminate]|].
  destruct (dump_json w _ topology) as [e0|]; cbn;
    [split; [reflexivity|discriminate]|].
  destruct (Config_init w) as [e0|]; cbn.
  { split; [discriminate|]. intros e H. left. congruence. }
  destruct (generate_mld_diagram w _ _) as [e0|]; cbn;
    [split; [reflexivity|discriminate]|].
  destruct (generate_hld_diagram w _ _) as [e0|]; cbn;
    [split; [reflexivity|discriminate]|].
  destruct (falsy (environ w !! "DRAWING_STORAGE_URL")); cbn;
    [split; [reflexivity|discriminate]|].
  destruct (falsy (environ w !! "DRAWING_CONTAINER_NAME")); cbn;
    [split; [reflexivity|discriminate]|].
  destruct (BlobServiceClient_init w _) as [e0|]; cbn.
  { split; [discriminate|]. intros e H. right. congruence. }
  match goal with
  | |- context [publish_and_meter ?a ?b ?c ?d ?e ?f ?g ?h ?i ?j] =>
      pose proof (publish_and_meter_returns a b c d e f g h i j) as Hret;
      destruct (publish_and_meter a b c d e f g h i j) as [[r s'] tr]
  end.
  unfold result_of in *. cbn [fst] in *. subst r.
  split; [reflexivity|discriminate].
Qed.

Lemma main_raises_only_from_constructors_witness :
  result_of (main storage_outage empty_store) = inr tt /\
  (Config_init broken_config = Some (OSError "config.yaml") \/
   BlobServiceClient_init broken_config
     (str_of (environ broken_config !! "DRAWING_STORAGE_URL"))
   = Some (OSError "config.yaml")).
Proof.
  split.
  - apply (proj1 (main_raises_only_from_constructors storage_outage empty_store));
      reflexivity.
  - apply (proj2 (main_raises_only_from_constructors broken_config empty_store)).
    vm_compute; reflexivity.
Defined.

(** ** Billing across runs *)

(** X19: at most one billing per day, run after run. After a run that
    ended in [Billed] on day D, and after any number of further runs, a run
    configured with the same storage whose check reads day D, and whose
    marker query the storage service answers from its contents, makes no
    downstream call and attempts no marker write; if its early stages
    succeed it ends in [SkippedAlreadyBilled]. *)
Theorem billed_day_is_not_billed_again w s later w' :
  terminal_state (trace_of (main w s)) = Some Billed ->
  storage_client w' = storage_client w ->
  storage_container w' = storage_container w ->
  date_of (clock w' (1 + ticks (run_all later (state_of (main w s)))))
  = date_of (clock w (3 + ticks s)) ->
  get_blob_properties_fault w'
    (day_marker (storage_client w) (storage_container w)
       (date_of (clock w (3 + ticks s)))) = None ->
  downstream_calls (trace_of (main w' (run_all later (state_of (main w s))))) = [] /\
  marker_writes (trace_of (main w' (run_all later (state_of (main w s))))) = [] /\
  (early_stages_ok w' (run_all later (state_of (main w s))) = true ->
   terminal_state (trace_of (main w' (run_all later (state_of (main w s)))))
   = Some SkippedAlreadyBilled).
Proof.
  intros Hbilled Hc Hcn Hday Hfault.
  destruct (run_reaching_write w s (billed_run_writes w s Hbilled))
    as (s1 & _ & _ & _ & [(_ & _ & Hblobs)|(e & Hfailed & _)]);
    [|congruence].
  set (s' := run_all later (state_of (main w s))) in *.
  assert (is_Some (blobs s'
                     !! marker_of (storage_client w) (storage_container w)
                          (clock w (3 + ticks s)))) as Hpresent.
  { apply run_all_keeps_blobs. rewrite Hblobs, lookup_insert_eq. eauto. }
  destruct (early_stages_ok w' s') eqn:Hok.
  - destruct (main_coordinator w' s' Hok)
      as (pre & s1' & Hpre & Hticks & Hkeep & _ & Htr).
    rewrite Htr. to_coordinator Hpre.
    unfold metering_run. rewrite Hticks, Hc, Hcn.
    change (S (ticks s')) with (1 + ticks s').
    rewrite (marker_of_ext _ _ _ _ Hday).
    unfold query_raises. rewrite marker_of_day, Hfault, <- marker_of_day.
    destruct (Hkeep _ Hpresent) as [data Hdata]. rewrite Hdata, !trace_of_mk.
    repeat split.
  - destruct (main_not_entered w' s' Hok) as [Hnone Hcalls].
    unfold downstream_calls, marker_writes. rewrite Hcalls, Hnone.
    split; [reflexivity|]. split; [reflexivity|discriminate].
Qed.

Lemma billed_day_is_not_billed_again_witness :
  downstream_calls
    (trace_of (main sample_world
                 (run_all [failing_uploads] (state_of (main sample_world empty_store)))))
  = [] /\
  marker_writes
    (trace_of (main sample_world
                 (run_all [failing_uploads] (state_of (main sample_world empty_store)))))
  = [] /\
  (early_stages_ok sample_world
     (run_all [failing_uploads] (state_of (main sample_world empty_store))) = true ->
   terminal_state
     (trace_of (main sample_world
                  (run_all [failing_uploads] (state_of (main sample_world empty_store)))))
   = Some SkippedAlreadyBilled).
Proof.
  apply (billed_day_is_not_billed_again sample_world empty_store
           [failing_uploads] sample_world).
  - vm_compute; reflexivity.
  - reflexivity.
  - reflexivity.
  - reflexivity.
  - reflexivity.
Defined.

Lemma failed_marker_write_run w s :
  terminal_state (trace_of (main w s)) = Some FailedMarkerWrite ->
  marker_writes (trace_of (main w s)) <> [] /\
  length (emission_calls (trace_of (main w s))) = 1.
Proof.
  destruct (early_stages_ok w s) eqn:Hok.
  - destruct (main_coordinator w s Hok) as (pre0 & s1 & Hpre & _ & _ & _ & Htr).
    rewrite Htr. to_coordinator Hpre.
    metering_paths; rewrite trace_of_mk; intros H; lazy in H;
      try discriminate H.
    split; [discriminate|reflexivity].
  - destruct (main_not_entered w s Hok) as [Hnone _].
    unfold terminal_state. rewrite Hnone. discriminate.
Qed.

Lemma marker_not_artifact w s c cn t :
  year_in_range (clock w (ticks s)) ->
  ~ In (marker_of c cn t) (artifact_refs w s).
Proof.
  intros Hyear Hin. unfold artifact_refs, marker_of, get_blob_client in Hin.
  cbn [In] in Hin.
  destruct Hin as [H|[H|[H|[]]]]; apply (f_equal snd) in H; cbn [snd] in H;
    exact (stamp_not_marker _ _ _ Hyear H).
Qed.

(** X20: the accepted risk of a failed marker write. When a run has
    posted the usage event but its marker write failed, the marker of the
    day stays absent; a following run whose check addresses the same marker
    object (and is answered by the storage service from its contents)
    therefore does not skip: it queries, gets "not found", and with its
    configuration present and its token and resolution requests successful
    it posts a second usage event for the same day. *)
Theorem unmarked_emission_is_repeated
    w1 s b w2 subscription_id rg_name plan_id token resource_id :
  marker_query (trace_of (main w1 s)) = Some (b, Some ResourceNotFoundError) ->
  get_blob_properties_fault w1 b = None ->
  terminal_state (trace_of (main w1 s)) = Some FailedMarkerWrite ->
  early_stages_ok w2 (state_of (main w1 s)) = true ->
  year_in_range (clock w2 (ticks (state_of (main w1 s)))) ->
  marker_of (storage_client w2) (storage_container w2)
    (clock w2 (1 + ticks (state_of (main w1 s)))) = b ->
  get_blob_properties_fault w2 b = None ->
  environ w2 !! "SUBSCRIPTION_ID" = Some subscription_id -> subscription_id <> EmptyString ->
  environ w2 !! "RESOURCE_GROUP_NAME" = Some rg_name -> rg_name <> EmptyString ->
  environ w2 !! "PLAN_ID" = Some plan_id -> plan_id <> EmptyString ->
  result_of (get_msi_token w2 s) = inr token ->
  result_of (get_managed_app_resource_id w2 subscription_id rg_name token s)
  = inr resource_id ->
  length (emission_calls (trace_of (main w1 s))) = 1 /\
  marker_query (trace_of (main w2 (state_of (main w1 s))))
  = Some (b, Some ResourceNotFoundError) /\
  emission_calls (trace_of (main w2 (state_of (main w1 s))))
  = [EvRequest
       (emission_request resource_id plan_id token
          (clock w2 (2 + ticks (state_of (main w1 s)))))
       (http w2
          (emission_request resource_id plan_id token
             (clock w2 (2 + ticks (state_of (main w1 s))))))].
Proof.
  intros Hq Hfault1 Hfailed Hok Hyear Hsame Hfault2
    Hsid Hsid' Hrg Hrg' Hplan Hplan' Htoken Hresolve.
  rewrite get_msi_token_eq in Htoken.
  rewrite get_managed_app_resource_id_eq in Hresolve.
  unfold result_of in Htoken, Hresolve. cbn [fst] in Htoken, Hresolve.
  destruct (failed_marker_write_run w1 s Hfailed) as [Hwrite Hposted].
  split; [exact Hposted|].
  destruct (run_reaching_write w1 s Hwrite)
    as (s1 & _ & Hraise & Hq1 & [(Hbilled & _)|(e & _ & _ & Hblobs)]);
    [congruence|].
  rewrite Hq in Hq1. injection Hq1 as Hb.
  assert (query_raises w1 s1 b = Some ResourceNotFoundError) as Hraise1
    by (rewrite Hb; exact Hraise).
  pose proof (absent_after w1 s1 b Hraise1 Hfault1) as Habsent.
  rewrite <- Hblobs in Habsent.
  set (s' := state_of (main w1 s)) in *.
  destruct (main_after_uploads w2 s' Hok) as (pre & Hpre & _ & Htr).
  rewrite Htr.
  assert (query_raises w2 (after_uploads w2 s')
            (marker_of (storage_client w2) (storage_container w2)
               (clock w2 (ticks (after_uploads w2 s'))))
          = Some ResourceNotFoundError) as Hraise2.
  { rewrite after_uploads_ticks. change (S (ticks s')) with (1 + ticks s').
    unfold query_raises. rewrite Hsame, Hfault2.
    rewrite after_uploads_frame
      by (rewrite <- Hsame; apply marker_not_artifact; exact Hyear).
    rewrite Habsent. reflexivity. }
  split; to_coordinator Hpre;
    past_config Hraise2 Htoken Hsid Hrg Hplan;
    rewrite Hresolve, ?after_uploads_ticks.
  - rewrite <- Hsame.
    destruct (decode (http w2 (emission_request _ _ _ _)) _);
      [|destruct (upload_blob_fault w2 _)]; reflexivity.
  - destruct (decode (http w2 (emission_request _ _ _ _)) _);
      [|destruct (upload_blob_fault w2 _)]; reflexivity.
Qed.

Lemma unmarked_emission_is_repeated_witness :
  length (emission_calls (trace_of (main refused_marker_write empty_store))) = 1 /\
  marker_query
    (trace_of (main sample_world (state_of (main refused_marker_write empty_store))))
  = Some (marker_of (storage_client sample_world) (storage_container sample_world)
            (sample_clock 1),
          Some ResourceNotFoundError) /\
  emission_calls
    (trace_of (main sample_world (state_of (main refused_marker_write empty_store))))
  = [EvRequest
       (emission_request (JStr "app-1") "plan-1" (JStr "tok")
          (clock sample_world
             (2 + ticks (state_of (main refused_marker_write empty_store)))))
       (http sample_world
          (emission_request (JStr "app-1") "plan-1" (JStr "tok")
             (clock sample_world
                (2 + ticks (state_of (main refused_marker_write empty_store))))))].
Proof.
  apply (unmarked_emission_is_repeated refused_marker_write empty_store
           (marker_of (storage_client sample_world) (storage_container sample_world)
              (sample_clock 1))
           sample_world "sub-1" "rg-1" "plan-1" (JStr "tok") (JStr "app-1"));
    first [discriminate | vm_compute; reflexivity
          | unfold year_in_range; cbn; lia].
Defined.

(** ** Early exits *)

(** X21: how an early exit is reported. A failed subscription listing, a
    failed topology collection and a missing (or empty) storage variable
    each end the run normally after exactly one clock read and without
    touching the store; the trace is the log of the stages passed followed
    by one ERROR record of the stage that stopped the run, carrying the
    exception when there is one. *)
Theorem early_exit_is_logged w s :
  (forall e,
     get_all_subscription_ids w = inl e ->
     main w s
     = (inr tt, tick s,
        [EvLog INFO "DrawTrigger function triggered" [];
         EvLog ERROR "Failed to list subscriptions: {}" [AExn e]])) /\
  (forall ids e,
     get_all_subscription_ids w = inr ids ->
     get_vnet_topology_for_selected_subscriptions w ids = inl e ->
     main w s
     = (inr tt, tick s,
        [EvLog INFO "DrawTrigger function triggered" [];
         EvLog INFO "Found {} subscriptions: {}" [ANat (length ids); AStrs ids];
         EvLog ERROR "Failed to retrieve VNet topology: {}" [AExn e]])) /\
  (forall ids topology,
     get_all_subscription_ids w = inr ids ->
     get_vnet_topology_for_selected_subscriptions w ids = inr topology ->
     dump_json w (tmp_path (json_file_name (clock w (ticks s)))) topology = None ->
     Config_init w = None ->
     generate_mld_diagram w (tmp_path (diagram_file_name_mld (clock w (ticks s))))
       (tmp_path (json_file_name (clock w (ticks s)))) = None ->
     generate_hld_diagram w (tmp_path (diagram_file_name_hld (clock w (ticks s))))
       (tmp_path (json_file_name (clock w (ticks s)))) = None ->
     falsy (environ w !! "DRAWING_STORAGE_URL")
     || falsy (environ w !! "DRAWING_CONTAINER_NAME") = true ->
     main w s
     = (inr tt, tick s,
        (startup_log w s
           ++ [EvLog ERROR
                 ("Storage configuration missing: "
                  +:+ "DRAWING_STORAGE_URL and DRAWING_CONTAINER_NAME must be set")
                 []])%list)).
Proof.
  unfold startup_log, main, attempt, try_except, bind, utcnow, tick,
    logging_info, logging_error, emit, lift_sum, lift_option, ret, raise,
    json_file_name, diagram_file_name_mld, diagram_file_name_hld, tmp_path.
  cbn. split; [|split].
  - intros e ->. reflexivity.
  - intros ids e -> H. cbn. rewrite H. reflexivity.
  - intros ids topology -> Htopology Hdump Hconfig Hmld Hhld Hmissing. cbn.
    rewrite Htopology. cbn. rewrite Hdump. cbn. rewrite Hconfig. cbn.
    rewrite Hmld. cbn. rewrite Hhld. cbn. rewrite Hmissing. reflexivity.
Qed.

Lemma early_exit_is_logged_witness :
  main failing_enumeration empty_store
  = (inr tt, tick empty_store,
     [EvLog INFO "DrawTrigger function triggered" [];
      EvLog ERROR "Failed to list subscriptions: {}"
        [AExn (OtherException "subscription listing failed")]]).
Proof.
  destruct (early_exit_is_logged failing_enumeration empty_store) as (Hlist & _).
  apply Hlist. reflexivity.
Defined.

